(** * IsDBI Langchain RAGs: document store, context formatter, stage chain
      and relevance scorer

    A shallow embedding of [document_manager.py] (class [DocumentManager])
    and of [modified-code.py] (class [AAOIFIAgentChain]), with the
    properties of the retrieval-augmented pipeline stated over it.

    Conventions of the embedding.
    - A Python [str] is a [string]; a character stands for one code point
      (code points below 256).
    - A Python exception is a value of [PyExn]; code that can raise returns
      a [Result]; methods that mutate [self] or talk to a collaborator are
      computations of the monad [Py St], which threads the state [St] and
      keeps it when an exception is raised, as Python does.
    - Console output of a fixed text ([print], [console.print]) has no
      effect on any value and is left out. Two except clauses of
      [AAOIFIAgentChain] print the caught exception through the markup of
      rich, and such a print can itself raise: the module
      [AAOIFIAgentChain] is the class under a console that prints every
      text, and the module [Logged] is the class with these two prints, the
      console being a parameter ([quiet_formatter], [quiet_process_standard]
      and [quiet_answer_question] relate the two).
    - A similarity score is an exact rational ([Q]): rounding error,
      infinities and NaN are outside the model. [py_div] and [round2] are
      the division and [round(x, 2)] of Python floats, in exact arithmetic:
      dividing by a zero float raises [ZeroDivisionError], and rounding
      goes to the nearest hundredth, a tie of the exact value going to the
      even one. The scores of a store may be numbers of another kind
      (numpy floats, on which a zero divisor gives nan and no exception):
      in [Logged] the arithmetic of the percentages is a parameter, and
      [python_percentage] is the one of Python floats. *)

From Stdlib Require Import String Ascii List ZArith QArith Bool Lia.
From Stdlib Require Import DecimalString.
Import ListNotations.

Set Warnings "-register-all".
Close Scope Q_scope.
Local Open Scope nat_scope.
Local Open Scope string_scope.
Local Open Scope list_scope.

(** ** Exceptions and results *)

Inductive PyExn : Type :=
| KeyError (key : string)
| TypeError
| AttributeError
| ZeroDivisionError
| RaisedBy (cls msg : string).
(* [RaisedBy cls msg]: an exception of class [cls] with message [msg] raised
   by a collaborator (file system, JSON parser, vector store, model). *)

Inductive Result (A : Type) : Type :=
| Ok (a : A)
| Raise (e : PyExn).
Arguments Ok {A} a.
Arguments Raise {A} e.

(** ** The monad of stateful Python code *)

Definition Py (St A : Type) : Type := St -> Result A * St.

Definition ret {St A} (a : A) : Py St A := fun s => (Ok a, s).

Definition bind {St A B} (c : Py St A) (k : A -> Py St B) : Py St B :=
  fun s => match c s with
           | (Ok a, s') => k a s'
           | (Raise e, s') => (Raise e, s')
           end.

Definition lift {St A} (r : Result A) : Py St A := fun s => (r, s).

(* try: body / except Exception as e: handler e *)
Definition try_except {St A} (body : Py St A) (handler : PyExn -> Py St A)
  : Py St A :=
  fun s => match body s with
           | (Ok a, s') => (Ok a, s')
           | (Raise e, s') => handler e s'
           end.

Declare Scope py_scope.
Delimit Scope py_scope with py.
Notation "x <- c ;; k" := (bind c (fun x => k))
  (at level 61, c at next level, right associativity) : py_scope.
Notation "c ;;; k" := (bind c (fun _ => k))
  (at level 61, right associativity) : py_scope.
Local Open Scope py_scope.

(* for x in xs: body x *)
Fixpoint for_each {St A} (xs : list A) (body : A -> Py St unit) : Py St unit :=
  match xs with
  | [] => ret tt
  | x :: xs' => body x ;;; for_each xs' body
  end.

(** ** Strings *)

Definition chars (s : string) : list ascii := list_ascii_of_string s.
Definition str (l : list ascii) : string := string_of_list_ascii l.

(* s[:n] *)
Definition slice_to (n : nat) (s : string) : string := substring 0 n s.

(* str.isspace on one character: the code points below 256 that Python
   treats as white space. *)
Definition is_space (c : ascii) : bool :=
  let n := nat_of_ascii c in
  (Nat.leb 9 n && Nat.leb n 13) || (Nat.leb 28 n && Nat.leb n 32)
  || Nat.eqb n 133 || Nat.eqb n 160.

Fixpoint lstrip_chars (l : list ascii) : list ascii :=
  match l with
  | c :: l' => if is_space c then lstrip_chars l' else l
  | [] => []
  end.

(* str.strip() *)
Definition strip (s : string) : string :=
  str (rev (lstrip_chars (rev (lstrip_chars (chars s))))).

(* truth value of a str *)
Definition nonempty (s : string) : bool :=
  match s with EmptyString => false | String _ _ => true end.

(* str(n) of an int *)
Definition str_of_Z (z : Z) : string := NilZero.string_of_int (Z.to_int z).
Definition str_of_nat (n : nat) : string := NilZero.string_of_uint (Nat.to_uint n).

(* sep.join(parts) *)
Fixpoint join (sep : string) (parts : list string) : string :=
  match parts with
  | [] => ""
  | [p] => p
  | p :: ps => p ++ sep ++ join sep ps
  end.

Definition newline : string := String (ascii_of_nat 10) "".

(** ** JSON values as Python objects

    What [json.load] returns: [None], [bool], [int], [str], [list], [dict].
    A dict is the list of its items in insertion order, each key once.
    JSON numbers are the integers (page numbers). *)

Inductive json : Type :=
| JNull
| JBool (b : bool)
| JNum (z : Z)
| JStr (s : string)
| JArr (items : list json)
| JObj (fields : list (string * json)).

Fixpoint assoc {A} (key : string) (kv : list (string * A)) : option A :=
  match kv with
  | [] => None
  | (k, v) :: kv' => if String.eqb k key then Some v else assoc key kv'
  end.

(* v[key] with a str key *)
Definition py_getitem (v : json) (key : string) : Result json :=
  match v with
  | JObj kv => match assoc key kv with
               | Some x => Ok x
               | None => Raise (KeyError key)
               end
  | _ => Raise TypeError
  end.

(* v.get(key, default) *)
Definition py_get (v : json) (key : string) (default : json) : Result json :=
  match v with
  | JObj kv => match assoc key kv with
               | Some x => Ok x
               | None => Ok default
               end
  | _ => Raise AttributeError
  end.

(* the elements that [for x in v] visits *)
Definition py_iter (v : json) : Result (list json) :=
  match v with
  | JArr l => Ok l
  | JObj kv => Ok (map (fun p => JStr (fst p)) kv)
  | JStr s => Ok (map (fun c => JStr (String c "")) (chars s))
  | _ => Raise TypeError
  end.

(* v.strip() *)
Definition py_strip (v : json) : Result string :=
  match v with
  | JStr s => Ok (strip s)
  | _ => Raise AttributeError
  end.

(** ** Documents *)

(* langchain's Document(page_content=..., metadata={...}) *)
Record Document : Type := mkDocument {
  page_content : string;
  metadata : list (string * json)
}.

(* metadata.get(key, default) on the metadata dict *)
Definition metadata_get (d : Document) (key : string) (default : json) : json :=
  match assoc key (metadata d) with
  | Some v => v
  | None => default
  end.

(** ** document_manager.py *)

Module DocumentManager.

(* An embedding vector. *)
Definition Embedding : Type := list Q.

(* FAISS.from_documents(documents, embedding_model): the index holds one
   entry per document, its embedding next to the document it came from. *)
Record FAISS : Type := mkFAISS {
  index : list (Embedding * Document)
}.

Definition from_documents (docs : list Document) (embed : string -> Embedding)
  : FAISS :=
  mkFAISS (map (fun d => (embed (page_content d), d)) docs).

(* vectorstore.as_retriever(): a retriever over that store *)
Record VectorStoreRetriever : Type := mkRetriever {
  store : FAISS
}.

Record t : Type := mk {
  embedding_model : string -> Embedding;
  documents : list Document;
  vectorstore : option FAISS;
  retriever : option VectorStoreRetriever
}.

(* __init__ *)
Definition init (embedding_model : string -> Embedding) : t :=
  mk embedding_model [] None None.

Definition set_documents (docs : list Document) : Py t unit :=
  fun self => (Ok tt, mk (embedding_model self) docs
                         (vectorstore self) (retriever self)).

(* self.documents.append(doc) *)
Definition append_document (doc : Document) : Py t unit :=
  fun self => (Ok tt, mk (embedding_model self) (documents self ++ [doc])
                         (vectorstore self) (retriever self)).

(* The body of the inner loop, lines 32-37. *)
Definition load_page (file_name : json) (page : json) : Py t unit :=
  raw <- lift (py_get page "text" (JStr "")) ;;
  text <- lift (py_strip raw) ;;
  if nonempty text then
    number <- lift (py_get page "page" JNull) ;;
    append_document
      (mkDocument text [("source", file_name); ("page", number)])
  else ret tt.

(* The body of the outer loop, lines 30-37. *)
Definition load_item (item : json) : Py t unit :=
  file_name <- lift (py_getitem item "file_name") ;;
  content <- lift (py_getitem item "content") ;;
  pages <- lift (py_iter content) ;;
  for_each pages (load_page file_name).

(* load_documents(file_path): [file] is what opening [file_path] and
   [json.load] produce, the parsed data or the exception they raise. *)
Definition load_documents (file : Result json) : Py t bool :=
  try_except
    (data <- lift file ;;
     set_documents [] ;;;
     items <- lift (py_iter data) ;;
     for_each items load_item ;;;
     ret true)
    (fun _ => ret false).

(* build_vectorstore() *)
Definition build_vectorstore : Py t bool :=
  fun self =>
    match documents self with
    | [] => (Ok false, self)
    | _ :: _ =>
        let vs := from_documents (documents self) (embedding_model self) in
        (Ok true, mk (embedding_model self) (documents self)
                     (Some vs) (Some (mkRetriever vs)))
    end.

(* get_retriever() *)
Definition get_retriever (self : t) : option VectorStoreRetriever :=
  retriever self.

End DocumentManager.

(** ** str() and repr() of the values held in metadata *)

Definition double_quote : ascii := ascii_of_nat 34.
Definition single_quote : ascii := ascii_of_nat 39.
Definition backslash : ascii := ascii_of_nat 92.

Definition hex_digit (n : nat) : ascii :=
  nth n (chars "0123456789abcdef") "0"%char.

Definition mem_char (c : ascii) (s : string) : bool :=
  existsb (Ascii.eqb c) (chars s).

(* one character inside the quotes of repr(s) *)
Definition repr_char (quote c : ascii) : string :=
  let n := nat_of_ascii c in
  if Ascii.eqb c quote || Ascii.eqb c backslash then String backslash (String c "")
  else if Nat.eqb n 9 then String backslash "t"
  else if Nat.eqb n 10 then String backslash "n"
  else if Nat.eqb n 13 then String backslash "r"
  else if Nat.ltb n 32 || Nat.eqb n 127
          || (Nat.leb 128 n && Nat.leb n 160) || Nat.eqb n 173
  then String backslash
         (String "x" (String (hex_digit (n / 16)) (String (hex_digit (n mod 16)) "")))
  else String c "".

(* repr(s) of a str: double quotes only when s holds a single quote and no
   double quote *)
Definition repr_str (s : string) : string :=
  let quote := if mem_char single_quote s && negb (mem_char double_quote s)
               then double_quote else single_quote in
  String quote (String.concat "" (map (repr_char quote) (chars s)) ++ String quote "").

Fixpoint py_repr (v : json) : string :=
  match v with
  | JNull => "None"
  | JBool true => "True"
  | JBool false => "False"
  | JNum z => str_of_Z z
  | JStr s => repr_str s
  | JArr l => "[" ++ join ", " (map py_repr l) ++ "]"
  | JObj kv =>
      "{" ++ join ", " (map (fun p : string * json => let (k, x) := p in
                                      (repr_str k ++ ": " ++ py_repr x)%string)
                          kv) ++ "}"
  end.

(* str(v), what an f-string puts for {v} *)
Definition py_str (v : json) : string :=
  match v with
  | JStr s => s
  | _ => py_repr v
  end.

(** ** Numbers *)

(* a / b on floats *)
Definition py_div (a b : Q) : Result Q :=
  if Qeq_bool b 0 then Raise ZeroDivisionError else Ok (a / b)%Q.

(* max(x :: xs), the list being non-empty: the first of the largest
   elements *)
Definition py_max (x : Q) (xs : list Q) : Q :=
  fold_left (fun m y => if Qle_bool y m then m else y) xs x.

(* the integer nearest to q, a tie going to the even one *)
Definition round_half_even (q : Q) : Z :=
  let n := Qnum q in
  let d := Zpos (Qden q) in
  let f := (n / d)%Z in
  match (2 * (n mod d) ?= d)%Z with
  | Lt => f
  | Gt => (f + 1)%Z
  | Eq => if Z.even f then f else (f + 1)%Z
  end.

(* round(x, 2) *)
Definition round2 (x : Q) : Q :=
  Qred (round_half_even (x * 100)%Q # 100).

(** ** modified-code.py: class AAOIFIAgentChain *)

Module AAOIFIAgentChain.

(* The four LLMChains built by _setup_chains. *)
Inductive Stage : Type := Review | Enhancement | Validation | QA.

(* An object in the place of [retriever.vectorstore]. The method
   similarity_search_with_score may be absent (hasattr). *)
Record VectorStore : Type := mkVectorStore {
  similarity_search_with_score :
    option (string -> nat -> Result (list (Document * Q)))
}.

(* The retriever handed to the constructor. The attribute vectorstore may
   be absent (hasattr). *)
Record Retriever : Type := mkRetriever {
  get_relevant_documents : string -> nat -> Result (list Document);
  vectorstore : option VectorStore
}.

(* self: [invoke stage inputs] is what chain.invoke(inputs)[output_key]
   gives for the chain of that stage (its prompt template filled with
   [inputs] and sent to the model), or the exception it raises. *)
Record t : Type := mk {
  invoke : Stage -> list (string * string) -> Result string;
  retriever : option Retriever
}.

(* Calls to the collaborators, in the order they are made. *)
Inductive Event : Type :=
| Retrieved (query : string) (k : nat)
| Searched (query : string) (k : nat)
| Invoked (stage : Stage) (inputs : list (string * string)).

Definition Trace : Type := list Event.

Definition call {A} (ev : Event) (r : Result A) : Py Trace A :=
  fun tr => (r, tr ++ [ev]).

(* the list context_parts built by the loop over enumerate(docs), from
   index [i] on *)
Fixpoint context_parts (i : nat) (docs : list Document) : list string :=
  match docs with
  | [] => []
  | doc :: rest =>
      let source := metadata_get doc "source" (JStr "Unknown source") in
      let page := metadata_get doc "page" (JStr "Unknown page") in
      ("Document " ++ str_of_nat (i + 1) ++ " (Source: " ++ py_str source
         ++ ", Page: " ++ py_str page ++ "):" ++ newline
         ++ page_content doc ++ newline)%string
      :: context_parts (S i) rest
  end.

Definition _retrieve_relevant_documents (self : t) (query : string)
  (max_docs : nat) : Py Trace string :=
  match retriever self with
  | None =>
      ret "No document retriever available. Proceeding without additional context."
  | Some r =>
      try_except
        (docs <- call (Retrieved query max_docs)
                      (get_relevant_documents r query max_docs) ;;
         match docs with
         | [] => ret "No relevant documents found in knowledge base."
         | _ :: _ => ret (join newline (context_parts 0 docs))
         end)
        (fun _ => ret "Error retrieving documents from knowledge base.")
  end.

Definition _retrieve_top_fas_rules (self : t) (query : string)
  (max_docs : nat) : Py Trace (list (Document * Q)) :=
  match retriever self with
  | None => ret []
  | Some r =>
      match vectorstore r with
      | None => ret []
      | Some vs =>
          try_except
            (match similarity_search_with_score vs with
             | Some search =>
                 call (Searched query max_docs) (search query max_docs)
             | None =>
                 docs <- call (Retrieved query max_docs)
                              (get_relevant_documents r query max_docs) ;;
                 ret (map (fun doc => (doc, 0%Q)) docs)
             end)
            (fun _ => ret [])
      end
  end.

(* input_text[:1000] if len(input_text) > 1000 else input_text *)
Definition query_of (text : string) : string :=
  if Nat.ltb 1000 (String.length text) then slice_to 1000 text else text.

Record PipelineOutput : Type := mkOutput {
  summary : string;
  suggestion : string;
  validation : string
}.

Definition process_standard (self : t) (input_text : string)
  : Py Trace PipelineOutput :=
  let query_text := query_of input_text in
  review_context <- _retrieve_relevant_documents self query_text 3 ;;
  summary <- call (Invoked Review
                     [("input_text", input_text);
                      ("retrieved_context", review_context)])
                  (invoke self Review
                     [("input_text", input_text);
                      ("retrieved_context", review_context)]) ;;
  enhancement_context <- _retrieve_relevant_documents self summary 3 ;;
  suggestion <- call (Invoked Enhancement
                        [("summary", summary);
                         ("retrieved_context", enhancement_context)])
                     (invoke self Enhancement
                        [("summary", summary);
                         ("retrieved_context", enhancement_context)]) ;;
  validation_context <- _retrieve_relevant_documents self suggestion 3 ;;
  validation <- call (Invoked Validation
                        [("input_text", input_text);
                         ("suggestion", suggestion);
                         ("retrieved_context", validation_context)])
                     (invoke self Validation
                        [("input_text", input_text);
                         ("suggestion", suggestion);
                         ("retrieved_context", validation_context)]) ;;
  ret (mkOutput summary suggestion validation).

Record Rule : Type := mkRule {
  source : json;
  page : json;
  content_snippet : string;
  relevance_percentage : Q
}.

Record Report : Type := mkReport {
  message : string;
  rules : list Rule
}.

(* doc.page_content[:200] + "..." if len(doc.page_content) > 200
   else doc.page_content *)
Definition snippet_of (text : string) : string :=
  if Nat.ltb 200 (String.length text) then slice_to 200 text ++ "..." else text.

(* One turn of the loop of lines 330-342. *)
Definition rule_of (max_score : Q) (hit : Document * Q) : Result Rule :=
  let (doc, score) := hit in
  match py_div score max_score with
  | Raise e => Raise e
  | Ok ratio =>
      let percentage := (ratio * 100)%Q in
      Ok (mkRule (metadata_get doc "source" (JStr "Unknown source"))
                 (metadata_get doc "page" (JStr "Unknown page"))
                 (snippet_of (page_content doc))
                 (round2 percentage))
  end.

(* The loop of lines 330-342: the local list [rules] after the loop, or the
   exception that ended it. *)
Fixpoint rules_of (max_score : Q) (hits : list (Document * Q))
  : Result (list Rule) :=
  match hits with
  | [] => Ok []
  | hit :: rest =>
      match rule_of max_score hit with
      | Raise e => Raise e
      | Ok rule =>
          match rules_of max_score rest with
          | Raise e => Raise e
          | Ok rules => Ok (rule :: rules)
          end
      end
  end.

(* max([score for _, score in docs_and_scores]) if docs_and_scores else 1.0 *)
Definition max_score_of (docs_and_scores : list (Document * Q)) : Q :=
  match map snd docs_and_scores with
  | [] => 1%Q
  | score :: scores => py_max score scores
  end.

(* context + " " + question, cut to 1000 characters *)
Definition qa_query (context question : string) : string :=
  let query_text := (context ++ " " ++ question)%string in
  if Nat.ltb 1000 (String.length query_text) then slice_to 1000 query_text
  else query_text.

Definition find_relevant_fas_rules (self : t) (context question : string)
  : Py Trace Report :=
  let query_text := qa_query context question in
  docs_and_scores <- _retrieve_top_fas_rules self query_text 3 ;;
  match docs_and_scores with
  | [] =>
      ret (mkReport "No relevant FAS rules found or retriever not available." [])
  | _ :: _ =>
      let max_score := max_score_of docs_and_scores in
      rules <- lift (rules_of max_score docs_and_scores) ;;
      ret (mkReport ("Found " ++ str_of_nat (List.length rules)
                       ++ " relevant FAS rules.")%string rules)
  end.

(* The dict {"answer": answer} that answer_question returns. *)
Record Answer : Type := mkAnswer {
  answer : string
}.

Definition answer_question (self : t) (context question : string)
  : Py Trace Answer :=
  let query_text := qa_query context question in
  retrieved_context <- _retrieve_relevant_documents self query_text 3 ;;
  answer <- call (Invoked QA
                    [("context", context);
                     ("question", question);
                     ("retrieved_context", retrieved_context)])
                 (invoke self QA
                    [("context", context);
                     ("question", question);
                     ("retrieved_context", retrieved_context)]) ;;
  ret (mkAnswer answer).

(* set_retriever(retriever) *)
Definition set_retriever (self : t) (r : Retriever) : t :=
  mk (invoke self) (Some r).

End AAOIFIAgentChain.

(** ** modified-code.py again, with the log lines of its except clauses

    [AAOIFIAgentChain] above leaves every console.print out. Two of them sit
    inside an except clause and print the caught exception through the
    markup of rich (lines 186 and 214); such a print can itself raise
    (rich raises MarkupError on a closing tag that matches no open tag), and
    what it raises leaves the method. The module below has these two lines.
    It takes as given what the libraries do:
    - [console_print text]: console.print(text), which returns or raises;
    - [str_of_exn e]: str(e);
    - [percentage_of score max_score]: round((score / max_score) * 100, 2)
      on the numbers of the store, which returns a number or raises.
    The prints of fixed text are left out as before. *)

Module Logged.

Import AAOIFIAgentChain.

Section Console.

Variable console_print : string -> Result unit.
Variable str_of_exn : PyExn -> string.
Variable Percentage : Type.
Variable percentage_of : Q -> Q -> Result Percentage.

Definition _retrieve_relevant_documents (self : t) (query : string)
  (max_docs : nat) : Py Trace string :=
  match retriever self with
  | None =>
      ret "No document retriever available. Proceeding without additional context."
  | Some r =>
      try_except
        (docs <- call (Retrieved query max_docs)
                      (get_relevant_documents r query max_docs) ;;
         match docs with
         | [] => ret "No relevant documents found in knowledge base."
         | _ :: _ => ret (join newline (context_parts 0 docs))
         end)
        (fun e =>
           lift (console_print
                   ("[bold red]Error retrieving documents: " ++ str_of_exn e)) ;;;
           ret "Error retrieving documents from knowledge base.")
  end.

Definition _retrieve_top_fas_rules (self : t) (query : string)
  (max_docs : nat) : Py Trace (list (Document * Q)) :=
  match retriever self with
  | None => ret []
  | Some r =>
      match vectorstore r with
      | None => ret []
      | Some vs =>
          try_except
            (match similarity_search_with_score vs with
             | Some search =>
                 call (Searched query max_docs) (search query max_docs)
             | None =>
                 docs <- call (Retrieved query max_docs)
                              (get_relevant_documents r query max_docs) ;;
                 ret (map (fun doc => (doc, 0%Q)) docs)
             end)
            (fun e =>
               lift (console_print
                       ("[bold red]Error retrieving FAS rules: "
                          ++ str_of_exn e)) ;;;
               ret [])
      end
  end.

Definition process_standard (self : t) (input_text : string)
  : Py Trace PipelineOutput :=
  let query_text := query_of input_text in
  review_context <- _retrieve_relevant_documents self query_text 3 ;;
  summary <- call (Invoked Review
                     [("input_text", input_text);
                      ("retrieved_context", review_context)])
                  (invoke self Review
                     [("input_text", input_text);
                      ("retrieved_context", review_context)]) ;;
  enhancement_context <- _retrieve_relevant_documents self summary 3 ;;
  suggestion <- call (Invoked Enhancement
                        [("summary", summary);
                         ("retrieved_context", enhancement_context)])
                     (invoke self Enhancement
                        [("summary", summary);
                         ("retrieved_context", enhancement_context)]) ;;
  validation_context <- _retrieve_relevant_documents self suggestion 3 ;;
  validation <- call (Invoked Validation
                        [("input_text", input_text);
                         ("suggestion", suggestion);
                         ("retrieved_context", validation_context)])
                     (invoke self Validation
                        [("input_text", input_text);
                         ("suggestion", suggestion);
                         ("retrieved_context", validation_context)]) ;;
  ret (mkOutput summary suggestion validation).

Definition answer_question (self : t) (context question : string)
  : Py Trace Answer :=
  let query_text := qa_query context question in
  retrieved_context <- _retrieve_relevant_documents self query_text 3 ;;
  answer <- call (Invoked QA
                    [("context", context);
                     ("question", question);
                     ("retrieved_context", retrieved_context)])
                 (invoke self QA
                    [("context", context);
                     ("question", question);
                     ("retrieved_context", retrieved_context)]) ;;
  ret (mkAnswer answer).

Record Rule : Type := mkRule {
  source : json;
  page : json;
  content_snippet : string;
  relevance_percentage : Percentage
}.

Record Report : Type := mkReport {
  message : string;
  rules : list Rule
}.

(* One turn of the loop of lines 330-342. *)
Definition rule_of (max_score : Q) (hit : Document * Q) : Result Rule :=
  let (doc, score) := hit in
  match percentage_of score max_score with
  | Raise e => Raise e
  | Ok percentage =>
      Ok (mkRule (metadata_get doc "source" (JStr "Unknown source"))
                 (metadata_get doc "page" (JStr "Unknown page"))
                 (snippet_of (page_content doc))
                 percentage)
  end.

(* The loop of lines 330-342. *)
Fixpoint rules_of (max_score : Q) (hits : list (Document * Q))
  : Result (list Rule) :=
  match hits with
  | [] => Ok []
  | hit :: rest =>
      match rule_of max_score hit with
      | Raise e => Raise e
      | Ok rule =>
          match rules_of max_score rest with
          | Raise e => Raise e
          | Ok rules => Ok (rule :: rules)
          end
      end
  end.

Definition find_relevant_fas_rules (self : t) (context question : string)
  : Py Trace Report :=
  let query_text := qa_query context question in
  docs_and_scores <- _retrieve_top_fas_rules self query_text 3 ;;
  match docs_and_scores with
  | [] =>
      ret (mkReport "No relevant FAS rules found or retriever not available." [])
  | _ :: _ =>
      let max_score := max_score_of docs_and_scores in
      rules <- lift (rules_of max_score docs_and_scores) ;;
      ret (mkReport ("Found " ++ str_of_nat (List.length rules)
                       ++ " relevant FAS rules.")%string rules)
  end.

End Console.

Arguments mkRule {Percentage}.
Arguments source {Percentage}.
Arguments page {Percentage}.
Arguments content_snippet {Percentage}.
Arguments relevance_percentage {Percentage}.
Arguments mkReport {Percentage}.
Arguments message {Percentage}.
Arguments rules {Percentage}.
Arguments rule_of {Percentage}.
Arguments rules_of {Percentage}.
Arguments find_relevant_fas_rules console_print str_of_exn {Percentage}.

End Logged.

(* round((score / max_score) * 100, 2) on Python floats. *)
Definition python_percentage (score max_score : Q) : Result Q :=
  match py_div score max_score with
  | Raise e => Raise e
  | Ok ratio => Ok (round2 (ratio * 100)%Q)
  end.

(** ** The corpus format, read declaratively

    The input format of the corpus file: a list of records, each a dict with
    a [file_name] and a [content], the list of its pages; a page is a dict
    with an optional [text] and an optional [page]. *)

Definition field (key : string) (v : json) : option json :=
  match v with
  | JObj kv => assoc key kv
  | _ => None
  end.

Definition page_wf (p : json) : bool :=
  match p with
  | JObj kv => match assoc "text" kv with
               | None => true
               | Some (JStr _) => true
               | Some _ => false
               end
  | _ => false
  end.

Definition record_wf (r : json) : bool :=
  match field "file_name" r, field "content" r with
  | Some (JStr _), Some (JArr pages) => forallb page_wf pages
  | _, _ => false
  end.

Definition corpus_wf (data : json) : bool :=
  match data with
  | JArr records => forallb record_wf records
  | _ => false
  end.

(* A record that is a dict and lacks [file_name] or [content]. *)
Definition record_incomplete (r : json) : bool :=
  match r with
  | JObj kv => match assoc "file_name" kv, assoc "content" kv with
               | Some _, Some _ => false
               | _, _ => true
               end
  | _ => false
  end.

(* The text of a page after trimming; no text counts as the empty text. *)
Definition page_text (p : json) : string :=
  match field "text" p with
  | Some (JStr s) => strip s
  | _ => ""
  end.

Definition page_number (p : json) : json :=
  match field "page" p with
  | Some n => n
  | None => JNull
  end.

(* The page entries of a record, each with the record's file name. *)
Definition record_pages (r : json) : list (json * json) :=
  match field "file_name" r, field "content" r with
  | Some name, Some (JArr pages) => map (pair name) pages
  | _, _ => []
  end.

(* The N page entries of a corpus, in file order. *)
Definition corpus_pages (data : json) : list (json * json) :=
  match data with
  | JArr records => flat_map record_pages records
  | _ => []
  end.

Definition has_text (entry : json * json) : bool :=
  nonempty (page_text (snd entry)).

(* The chunk of a page entry: trimmed text, file name as source, page
   number. *)
Definition chunk_of (entry : json * json) : Document :=
  mkDocument (page_text (snd entry))
             [("source", fst entry); ("page", page_number (snd entry))].

(* One chunk per page entry whose text is non-empty after trimming. *)
Definition corpus_chunks (data : json) : list Document :=
  map chunk_of (filter has_text (corpus_pages data)).

(* [self] with [docs] appended to its chunk list. *)
Definition with_more (self : DocumentManager.t) (docs : list Document)
  : DocumentManager.t :=
  DocumentManager.mk (DocumentManager.embedding_model self)
                     (DocumentManager.documents self ++ docs)
                     (DocumentManager.vectorstore self)
                     (DocumentManager.retriever self).

(* [self] with its chunk list replaced by [docs]. *)
Definition with_documents (self : DocumentManager.t) (docs : list Document)
  : DocumentManager.t :=
  DocumentManager.mk (DocumentManager.embedding_model self) docs
                     (DocumentManager.vectorstore self)
                     (DocumentManager.retriever self).

(** ** The context block, read declaratively *)

(* "Document {i} (Source: {source}, Page: {page}):\n{text}\n" *)
Definition rendered_hit (i : nat) (doc : Document) : string :=
  "Document " ++ str_of_nat i
  ++ " (Source: " ++ py_str (metadata_get doc "source" (JStr "Unknown source"))
  ++ ", Page: " ++ py_str (metadata_get doc "page" (JStr "Unknown page"))
  ++ "):" ++ newline ++ page_content doc ++ newline.

(* The hits rendered in retrieval order, numbered from 1. *)
Definition rendered_hits (docs : list Document) : list string :=
  map (fun entry : nat * Document => rendered_hit (fst entry) (snd entry))
      (combine (seq 1 (List.length docs)) docs).

(* What _retrieve_relevant_documents answers to [query], read off the
   retriever's answer. *)
Definition context_text (self : AAOIFIAgentChain.t) (query : string) (k : nat)
  : string :=
  match AAOIFIAgentChain.retriever self with
  | None =>
      "No document retriever available. Proceeding without additional context."
  | Some r =>
      match AAOIFIAgentChain.get_relevant_documents r query k with
      | Raise _ => "Error retrieving documents from knowledge base."
      | Ok [] => "No relevant documents found in knowledge base."
      | Ok docs => join newline (rendered_hits docs)
      end
  end.

(* The call it makes to the retriever, when there is one. *)
Definition retrieval_events (self : AAOIFIAgentChain.t) (query : string)
  (k : nat) : AAOIFIAgentChain.Trace :=
  match AAOIFIAgentChain.retriever self with
  | None => []
  | Some _ => [AAOIFIAgentChain.Retrieved query k]
  end.

(* The inputs handed to the chain of each stage. *)
Definition review_inputs (input_text context : string) : list (string * string) :=
  [("input_text", input_text); ("retrieved_context", context)].

Definition enhancement_inputs (summary context : string) : list (string * string) :=
  [("summary", summary); ("retrieved_context", context)].

Definition validation_inputs (input_text suggestion context : string)
  : list (string * string) :=
  [("input_text", input_text); ("suggestion", suggestion);
   ("retrieved_context", context)].

(* The calls of a run that ends in the review stage, and of the runs that
   go further. *)
Definition review_calls (self : AAOIFIAgentChain.t) (input_text : string) : AAOIFIAgentChain.Trace :=
  retrieval_events self (AAOIFIAgentChain.query_of input_text) 3
  ++ [AAOIFIAgentChain.Invoked AAOIFIAgentChain.Review
        (review_inputs input_text (context_text self (AAOIFIAgentChain.query_of input_text) 3))].

Definition enhancement_calls (self : AAOIFIAgentChain.t) (summary : string) : AAOIFIAgentChain.Trace :=
  retrieval_events self summary 3
  ++ [AAOIFIAgentChain.Invoked AAOIFIAgentChain.Enhancement
        (enhancement_inputs summary (context_text self summary 3))].

Definition validation_calls (self : AAOIFIAgentChain.t) (input_text suggestion : string) : AAOIFIAgentChain.Trace :=
  retrieval_events self suggestion 3
  ++ [AAOIFIAgentChain.Invoked AAOIFIAgentChain.Validation
        (validation_inputs input_text suggestion
           (context_text self suggestion 3))].





(** ** The chain with its log lines, read declaratively *)

(* The log line of a failed retrieval returns: the retriever answers
   [query], or console.print returns on the text of line 186 for the
   exception it raised. *)
Definition retrieval_logged (console_print : string -> Result unit)
  (str_of_exn : PyExn -> string) (self : AAOIFIAgentChain.t)
  (query : string) (k : nat) : Prop :=
  match AAOIFIAgentChain.retriever self with
  | None => True
  | Some r =>
      match AAOIFIAgentChain.get_relevant_documents r query k with
      | Ok _ => True
      | Raise e =>
          console_print ("[bold red]Error retrieving documents: "
                           ++ str_of_exn e)%string = Ok tt
      end
  end.

(* The store of the retriever raises [e] on the query of the scorer: the
   scored search when the store has one, the retriever without it. *)
Definition store_raises (r : AAOIFIAgentChain.Retriever)
  (vs : AAOIFIAgentChain.VectorStore) (query : string) (k : nat) (e : PyExn)
  : Prop :=
  match AAOIFIAgentChain.similarity_search_with_score vs with
  | Some search => search query k = Raise e
  | None => AAOIFIAgentChain.get_relevant_documents r query k = Raise e
  end.

(* The hits that retrieval yields for the scorer: what the scored search
   of the store returns for [query] and [k]; for a store without scored
   search, what the retriever returns, every document with the score 0;
   none without a retriever or without a store. *)
Definition retrieval_yields (self : AAOIFIAgentChain.t) (query : string)
  (k : nat) (hits : list (Document * Q)) : Prop :=
  match AAOIFIAgentChain.retriever self with
  | None => hits = []
  | Some r =>
      match AAOIFIAgentChain.vectorstore r with
      | None => hits = []
      | Some vs =>
          match AAOIFIAgentChain.similarity_search_with_score vs with
          | Some search => search query k = Ok hits
          | None =>
              exists docs,
                AAOIFIAgentChain.get_relevant_documents r query k = Ok docs
                /\ hits = map (fun doc => (doc, 0%Q)) docs
          end
      end
  end.

(* The rule at the place of a hit carries that hit's source, page and
   snippet. *)
Definition rule_follows {Percentage} (hit : Document * Q)
  (rule : Logged.Rule Percentage) : Prop :=
  Logged.source rule = metadata_get (fst hit) "source" (JStr "Unknown source")
  /\ Logged.page rule = metadata_get (fst hit) "page" (JStr "Unknown page")
  /\ Logged.content_snippet rule
     = AAOIFIAgentChain.snippet_of (page_content (fst hit)).

(* The no-results report. *)
Definition no_results {Percentage} : Logged.Report Percentage :=
  Logged.mkReport "No relevant FAS rules found or retriever not available." [].

(* A hit whose score is at least every score of the hits. *)
Definition top_hit (hits : list (Document * Q)) (hit : Document * Q) : Prop :=
  Forall (fun other => (snd other <= snd hit)%Q) hits.

(* A console that prints every text. *)
Definition prints_all (text : string) : Result unit := Ok tt.

(* A console that raises on the texts that hold the closing tag [/INST], as
   the markup of rich does when no tag of that name is open. *)
Definition refuses_closing_tags (text : string) : Result unit :=
  match index 0 "[/INST]" text with
  | Some _ =>
      Raise (RaisedBy "MarkupError"
                      "closing tag '[/INST]' doesn't match any open tag")
  | None => Ok tt
  end.

(* str(e) of the exceptions that the samples raise. *)
Definition sample_str (e : PyExn) : string :=
  match e with
  | RaisedBy _ msg => msg
  | ZeroDivisionError => "float division by zero"
  | _ => ""
  end.

(* A retriever that raises, with a message that holds a closing tag, on
   every query; its store has no scored search. *)
Definition tagged_failure : AAOIFIAgentChain.Retriever :=
  AAOIFIAgentChain.mkRetriever
    (fun _ _ => Raise (RaisedBy "RuntimeError" "unexpected [/INST] token"))
    (Some (AAOIFIAgentChain.mkVectorStore None)).

(** ** The rules of a report against the hits, in exact arithmetic *)

(* The rule at the place of a hit carries that hit's source, page and
   snippet, and the hit's score as a percentage of [max_score]. *)
Definition rule_matches (max_score : Q) (hit : Document * Q)
  (rule : AAOIFIAgentChain.Rule) : Prop :=
  AAOIFIAgentChain.source rule
    = metadata_get (fst hit) "source" (JStr "Unknown source")
  /\ AAOIFIAgentChain.page rule
     = metadata_get (fst hit) "page" (JStr "Unknown page")
  /\ AAOIFIAgentChain.content_snippet rule
     = AAOIFIAgentChain.snippet_of (page_content (fst hit))
  /\ AAOIFIAgentChain.relevance_percentage rule
     = round2 (snd hit / max_score * 100)%Q.

(** ** model_manager.py *)

(* str.lower() on one character (code points below 256). *)
Definition lower_char (c : ascii) : ascii :=
  let n := nat_of_ascii c in
  if (Nat.leb 65 n && Nat.leb n 90)
     || (Nat.leb 192 n && Nat.leb n 222 && negb (Nat.eqb n 215))
  then ascii_of_nat (n + 32) else c.

(* s.lower() *)
Definition py_lower (s : string) : string := str (map lower_char (chars s)).

(* raise ValueError(msg) *)
Definition ValueError (msg : string) : PyExn := RaisedBy "ValueError" msg.

Module ModelManager.

Section Objects.

(* The objects that the model libraries hand back. *)
Variables Tokenizer Model LLM Embeddings : Type.

(* The library calls of model_manager.py, each with what it returns or the
   exception it raises:
   - AutoTokenizer.from_pretrained(path);
   - AutoModelForCausalLM.from_pretrained(path);
   - HuggingFacePipeline(pipeline=pipeline("text-generation", model=...,
     tokenizer=..., device=..., max_new_tokens=512, do_sample=True,
     temperature=0.7));
   - Ollama(base_url=..., model="llama2", temperature=0.7, num_predict=512);
   - HuggingFaceEmbeddings(). *)
Record Libraries : Type := mkLibraries {
  tokenizer_from_pretrained : string -> Result Tokenizer;
  model_from_pretrained : string -> Result Model;
  text_generation_llm : Model -> Tokenizer -> Z -> Result LLM;
  ollama_llm : string -> Result LLM;
  huggingface_embeddings : Result Embeddings
}.

Record t : Type := mk {
  model_type : string;
  model_path : string;
  device : Z;
  ollama_base_url : string;
  tokenizer : option Tokenizer;
  model : option Model;
  llm : option LLM;
  embedding_model : option Embeddings
}.

(* __init__ *)
Definition init (model_type model_path : string) (device : Z)
  (ollama_base_url : string) : t :=
  mk (py_lower model_type) model_path device ollama_base_url
     None None None None.

Definition set_tokenizer (x : Tokenizer) : Py t unit :=
  fun self => (Ok tt, mk (model_type self) (model_path self) (device self)
                         (ollama_base_url self) (Some x) (model self)
                         (llm self) (embedding_model self)).

Definition set_model (x : Model) : Py t unit :=
  fun self => (Ok tt, mk (model_type self) (model_path self) (device self)
                         (ollama_base_url self) (tokenizer self) (Some x)
                         (llm self) (embedding_model self)).

Definition set_llm (x : LLM) : Py t unit :=
  fun self => (Ok tt, mk (model_type self) (model_path self) (device self)
                         (ollama_base_url self) (tokenizer self) (model self)
                         (Some x) (embedding_model self)).

Definition set_embedding_model (x : Embeddings) : Py t unit :=
  fun self => (Ok tt, mk (model_type self) (model_path self) (device self)
                         (ollama_base_url self) (tokenizer self) (model self)
                         (llm self) (Some x)).

Variable lib : Libraries.

(* except Exception as e: ...; raise *)
Definition reraise {A} (e : PyExn) : Py t A := lift (Raise e).

Definition _load_bloom_model : Py t unit :=
  fun self =>
    try_except
      (tok <- lift (tokenizer_from_pretrained lib (model_path self)) ;;
       set_tokenizer tok ;;;
       m <- lift (model_from_pretrained lib (model_path self)) ;;
       set_model m ;;;
       l <- lift (text_generation_llm lib m tok (device self)) ;;
       set_llm l)
      reraise self.

Definition _load_llama2_model : Py t unit :=
  fun self =>
    try_except
      (l <- lift (ollama_llm lib (ollama_base_url self)) ;;
       set_llm l)
      reraise self.

Definition _load_llm : Py t unit :=
  fun self =>
    if String.eqb (model_type self) "bloom" then _load_bloom_model self
    else if String.eqb (model_type self) "llama2" then _load_llama2_model self
    else lift (Raise (ValueError
                        ("Unsupported model type: " ++ model_type self
                           ++ ". Choose 'bloom' or 'llama2'."))) self.

Definition _load_embedding_model : Py t unit :=
  e <- lift (huggingface_embeddings lib) ;;
  set_embedding_model e.

Definition load_models : Py t unit :=
  _load_llm ;;; _load_embedding_model.

(* get_llm(): self.llm, loaded first when it is not there yet *)
Definition get_llm : Py t (option LLM) :=
  fun self =>
    match llm self with
    | Some _ => (Ok (llm self), self)
    | None => (_load_llm ;;; (fun self' => (Ok (llm self'), self'))) self
    end.

(* get_embedding_model() *)
Definition get_embedding_model : Py t (option Embeddings) :=
  fun self =>
    match embedding_model self with
    | Some _ => (Ok (embedding_model self), self)
    | None =>
        (_load_embedding_model ;;;
         (fun self' => (Ok (embedding_model self'), self'))) self
    end.

End Objects.

(* list_available_models() *)
Definition list_available_models : list (string * string) :=
  [("bloom", "BLOOM 560M (Local)"); ("llama2", "Llama 2 (via Ollama)")].

Arguments mkLibraries {Tokenizer Model LLM Embeddings}.
Arguments tokenizer_from_pretrained {Tokenizer Model LLM Embeddings}.
Arguments model_from_pretrained {Tokenizer Model LLM Embeddings}.
Arguments text_generation_llm {Tokenizer Model LLM Embeddings}.
Arguments ollama_llm {Tokenizer Model LLM Embeddings}.
Arguments huggingface_embeddings {Tokenizer Model LLM Embeddings}.
Arguments mk {Tokenizer Model LLM Embeddings}.
Arguments init {Tokenizer Model LLM Embeddings}.
Arguments model_type {Tokenizer Model LLM Embeddings}.
Arguments model_path {Tokenizer Model LLM Embeddings}.
Arguments device {Tokenizer Model LLM Embeddings}.
Arguments ollama_base_url {Tokenizer Model LLM Embeddings}.
Arguments tokenizer {Tokenizer Model LLM Embeddings}.
Arguments model {Tokenizer Model LLM Embeddings}.
Arguments llm {Tokenizer Model LLM Embeddings}.
Arguments embedding_model {Tokenizer Model LLM Embeddings}.
Arguments _load_bloom_model {Tokenizer Model LLM Embeddings}.
Arguments _load_llama2_model {Tokenizer Model LLM Embeddings}.
Arguments _load_llm {Tokenizer Model LLM Embeddings}.
Arguments _load_embedding_model {Tokenizer Model LLM Embeddings}.
Arguments load_models {Tokenizer Model LLM Embeddings}.
Arguments get_llm {Tokenizer Model LLM Embeddings}.
Arguments get_embedding_model {Tokenizer Model LLM Embeddings}.

End ModelManager.

(** ** modified-code.py and server.py: the JSON endpoints of AIServer *)

(* bool(v) of a value that json.loads returns *)
Definition py_truthy (v : json) : bool :=
  match v with
  | JNull => false
  | JBool b => b
  | JNum z => negb (Z.eqb z 0)
  | JStr s => nonempty s
  | JArr l => match l with [] => false | _ :: _ => true end
  | JObj kv => match kv with [] => false | _ :: _ => true end
  end.

Module AIServer.

(* The JSON object written as the body of a response:
   {"answer": ...}; the report of find_relevant_fas_rules;
   {"Analysis": ..., "suggestion": ..., "validation": ...};
   {"error": str(e)} for a caught exception e; {"error": msg}. *)
Inductive Body : Type :=
| AnswerBody (answer : string)
| ReportBody (report : AAOIFIAgentChain.Report)
| AnalysisBody (analysis suggestion validation : string)
| ErrorBody (e : PyExn)
| ErrorText (msg : string).

(* _set_headers(code=...) followed by the body *)
Record Response : Type := mkResponse {
  code : nat;
  body : Body
}.

(* What the handler reads of a POST request, each part with the outcome of
   the library call that reads it:
   - self.path;
   - int(self.headers.get('Content-Length', 0));
   - json.loads(self.rfile.read(content_length));
   - self.headers.get("Content-Type", "") and the uploaded file, which only
     /challenge_4 reads; that branch is not embedded here. *)
Record Request : Type := mkRequest {
  path : string;
  content_length : Result Z;
  json_body : Result json;
  content_type : string;
  upload : Result (option string)
}.

(* A language model as the chain sees it: what the chain of each stage
   answers. *)
Definition LLM : Type :=
  AAOIFIAgentChain.Stage -> list (string * string) -> Result string.

Definition Embeddings : Type := string -> DocumentManager.Embedding.

Section Server.

Variables Tokenizer Model : Type.

Record t : Type := mk {
  port : Z;
  model_manager : option (ModelManager.t Tokenizer Model LLM Embeddings);
  document_manager : option DocumentManager.t;
  agent_chain : option AAOIFIAgentChain.t
}.

(* ai_server.agent_chain.method(...) *)
Definition on_agent_chain {A} (self : t)
  (method : AAOIFIAgentChain.t -> Py AAOIFIAgentChain.Trace A)
  : Py AAOIFIAgentChain.Trace A :=
  match agent_chain self with
  | None => lift (Raise AttributeError)
  | Some chain => method chain
  end.

(* The try block shared by the three JSON endpoints, with its except
   clause: the fields are read and tested, [work] computes the body of the
   200 response (None: the request is outside this model), and every
   exception is answered with 400. The body is taken as read, and the
   console as printing every text, as in [AAOIFIAgentChain]. *)
Definition json_endpoint (request : Request)
  (work : json -> json -> Py AAOIFIAgentChain.Trace (option Body))
  : Py AAOIFIAgentChain.Trace (option Response) :=
  _ <- lift (content_length request) ;;
  try_except
    (data <- lift (json_body request) ;;
     context <- lift (py_get data "context" JNull) ;;
     question <- lift (py_get data "question" JNull) ;;
     if negb (py_truthy context) || negb (py_truthy question)
     then lift (Raise (ValueError "Missing context or question."))
     else
       response <- work context question ;;
       ret (option_map (mkResponse 200) response))
    (fun e => ret (Some (mkResponse 400 (ErrorBody e)))).

(* Lines 464-489. The chain formats context and question with str(). *)
Definition challenge_1 (self : t) (request : Request)
  : Py AAOIFIAgentChain.Trace (option Response) :=
  json_endpoint request
    (fun context question =>
       output <- on_agent_chain self
                   (fun chain =>
                      AAOIFIAgentChain.answer_question chain
                        (py_str context) (py_str question)) ;;
       ret (Some (AnswerBody (AAOIFIAgentChain.answer output)))).

(* Lines 491-514. *)
Definition challenge_2 (self : t) (request : Request)
  : Py AAOIFIAgentChain.Trace (option Response) :=
  json_endpoint request
    (fun context question =>
       output <- on_agent_chain self
                   (fun chain =>
                      AAOIFIAgentChain.find_relevant_fas_rules chain
                        (py_str context) (py_str question)) ;;
       ret (Some (ReportBody output))).

(* Lines 516-543. process_standard takes len() of the context: a number or
   a bool has none; a list or a dict is outside this model. *)
Definition challenge_3 (self : t) (request : Request)
  : Py AAOIFIAgentChain.Trace (option Response) :=
  json_endpoint request
    (fun context question =>
       match context with
       | JStr text =>
           output <- on_agent_chain self
                       (fun chain =>
                          AAOIFIAgentChain.process_standard chain text) ;;
           ret (Some (AnalysisBody (AAOIFIAgentChain.summary output)
                                   (AAOIFIAgentChain.suggestion output)
                                   (AAOIFIAgentChain.validation output)))
       | JArr _ | JObj _ =>
           match agent_chain self with
           | None => lift (Raise AttributeError)
           | Some _ => ret None
           end
       | _ => on_agent_chain self (fun _ => lift (Raise TypeError))
       end).

End Server.

Arguments mk {Tokenizer Model}.
Arguments on_agent_chain {Tokenizer Model A}.
Arguments port {Tokenizer Model}.
Arguments model_manager {Tokenizer Model}.
Arguments document_manager {Tokenizer Model}.
Arguments agent_chain {Tokenizer Model}.
Arguments challenge_1 {Tokenizer Model}.
Arguments challenge_2 {Tokenizer Model}.
Arguments challenge_3 {Tokenizer Model}.

End AIServer.

(** ** What every stored chunk satisfies *)

(* A text that str.strip() leaves as it is. *)
Definition trimmed (s : string) : bool := String.eqb (strip s) s.

(* A chunk as load_documents makes them: a non-empty trimmed text, and a
   metadata dict with the two keys source and page, in that order. *)
Definition chunk_ok (doc : Document) : Prop :=
  nonempty (page_content doc) = true
  /\ trimmed (page_content doc) = true
  /\ exists src number, metadata doc = [("source", src); ("page", number)].

(* A computation on the document manager that only appends chunks, the same
   ones with the same outcome whatever the store holds, each of them
   satisfying [P]. *)
Definition appends {A} (P : Document -> Prop) (c : Py DocumentManager.t A)
  : Prop :=
  exists (r : Result A) (docs : list Document),
    Forall P docs /\ forall self, c self = (r, with_more self docs).

(* The inputs handed to the question-answering chain. *)
Definition qa_inputs (context question retrieved : string)
  : list (string * string) :=
  [("context", context); ("question", question);
   ("retrieved_context", retrieved)].

(* The part of a trace after its first [n] events. *)
Definition events_after (n : nat) (tr : AAOIFIAgentChain.Trace)
  : AAOIFIAgentChain.Trace := skipn n tr.

(** ** Sample inputs *)

Definition sample_embed : string -> DocumentManager.Embedding := fun _ => [].

Definition sample_page : json :=
  JObj [("text", JStr "riba is prohibited"); ("page", JNum 1)].

Definition sample_record : json :=
  JObj [("file_name", JStr "A"); ("content", JArr [sample_page])].

(* One record, one page with text. *)
Definition sample_corpus : json := JArr [sample_record].

(* One record, one page whose text is blank. *)
Definition blank_corpus : json :=
  JArr [JObj [("file_name", JStr "A");
              ("content", JArr [JObj [("text", JStr "   "); ("page", JNum 1)]])]].

(* A complete record followed by one without file_name. *)
Definition broken_corpus : json :=
  JArr [sample_record; JObj [("content", JArr [sample_page])]].

Definition doc_a : Document :=
  mkDocument "hello" [("source", JStr "A"); ("page", JNum 1)].

Definition doc_b : Document :=
  mkDocument "world" [("source", JStr "B"); ("page", JNull)].

(* A retriever over a vector store with scores: two hits, scores 1/2 and
   1/4. *)
Definition scored_retriever : AAOIFIAgentChain.Retriever :=
  AAOIFIAgentChain.mkRetriever
    (fun _ k => Ok (firstn k [doc_a; doc_b]))
    (Some (AAOIFIAgentChain.mkVectorStore
             (Some (fun _ k => Ok (firstn k [(doc_a, (1 # 2)%Q);
                                             (doc_b, (1 # 4)%Q)]))))).

(* A retriever whose vector store has no similarity_search_with_score: the
   fallback of _retrieve_top_fas_rules applies. *)
Definition unscored_retriever : AAOIFIAgentChain.Retriever :=
  AAOIFIAgentChain.mkRetriever
    (fun _ k => Ok (firstn k [doc_a; doc_b]))
    (Some (AAOIFIAgentChain.mkVectorStore None)).

(* A model that answers every stage. *)
Definition answering (stage : AAOIFIAgentChain.Stage)
  (inputs : list (string * string)) : Result string :=
  match stage with
  | AAOIFIAgentChain.Review => Ok "the summary"
  | AAOIFIAgentChain.Enhancement => Ok "the suggestion"
  | AAOIFIAgentChain.Validation => Ok "the validation"
  | AAOIFIAgentChain.QA => Ok "the answer"
  end.

Definition model_down : PyExn := RaisedBy "RuntimeError" "model down".



(* A chunk text of 201 characters. *)
Definition long_text : string := str (repeat "a"%char 201).

(* The value that data.get(key) gives on a dict. *)
Definition got (key : string) (kv : list (string * json)) : json :=
  match assoc key kv with
  | Some v => v
  | None => JNull
  end.

Definition missing_fields : AIServer.Response :=
  AIServer.mkResponse 400
    (AIServer.ErrorBody (ValueError "Missing context or question.")).

(* Libraries that load every model. *)
Definition working_libraries
  : ModelManager.Libraries unit unit AIServer.LLM AIServer.Embeddings :=
  ModelManager.mkLibraries (fun _ => Ok tt) (fun _ => Ok tt)
    (fun _ _ _ => Ok answering) (fun _ => Ok answering) (Ok sample_embed).

(* Libraries whose model files are missing: the tokenizer loads, the model
   does not. *)
Definition missing_model_libraries
  : ModelManager.Libraries unit unit AIServer.LLM AIServer.Embeddings :=
  ModelManager.mkLibraries (fun _ => Ok tt) (fun _ => Raise model_down)
    (fun _ _ _ => Ok answering) (fun _ => Ok answering) (Ok sample_embed).

(* A server whose chain runs on [self]. *)
Definition server_with (chain : AAOIFIAgentChain.t) : @AIServer.t unit unit :=
  AIServer.mk 8000%Z None None (Some chain).

(* A JSON request with the fields context and question. *)
Definition json_request (path : string) (context question : json)
  : AIServer.Request :=
  AIServer.mkRequest path (Ok 64%Z)
    (Ok (JObj [("context", context); ("question", question)])) "" (Ok None).

(** * Properties *)

(** ** The monad *)

Lemma for_each_app {St A} (xs ys : list A) (body : A -> Py St unit) (s : St) :
  for_each (xs ++ ys) body s
  = (for_each xs body ;;; for_each ys body) s.
Proof.
  revert s. induction xs as [|x xs IH]; intros s; simpl.
  - reflexivity.
  - unfold bind in *. destruct (body x s) as [[[]|e] s']; [|reflexivity].
    now rewrite IH.
Qed.

(** ** DocumentManager *)

Section Ingestion.

Import DocumentManager.

Lemma with_more_nil (self : t) : with_more self [] = self.
Proof. destruct self; unfold with_more; simpl. now rewrite app_nil_r. Qed.

Lemma with_more_more (self : t) (a b : list Document) :
  with_more (with_more self a) b = with_more self (a ++ b).
Proof. unfold with_more; simpl. now rewrite app_assoc. Qed.

Lemma with_more_reset (self : t) (docs : list Document) :
  with_more (with_documents self []) docs = with_documents self docs.
Proof. reflexivity. Qed.

(* One turn of the inner loop on a well-formed page appends the page's chunk
   when its trimmed text is non-empty and nothing otherwise. *)
Lemma load_page_wf (name page : json) (self : t) :
  page_wf page = true ->
  load_page name page self
  = (Ok tt, with_more self (map chunk_of (filter has_text [(name, page)]))).
Proof.
  intros Hwf. destruct page as [| | | |?|kv]; try discriminate.
  unfold page_wf in Hwf. unfold load_page, bind, lift, py_get.
  cbn [filter]. unfold has_text. cbn [snd].
  destruct (assoc "text" kv) as [[| | |s| |]|] eqn:Etext; try discriminate.
  - assert (Ht : page_text (JObj kv) = strip s)
      by (unfold page_text, field; now rewrite Etext).
    rewrite Ht. cbn [py_strip].
    destruct (strip s) eqn:Es; cbn [nonempty map].
    + unfold ret. now rewrite with_more_nil.
    + unfold chunk_of, page_number, field. cbn [snd fst]. rewrite Ht.
      destruct (assoc "page" kv); reflexivity.
  - assert (Ht : page_text (JObj kv) = "")
      by (unfold page_text, field; now rewrite Etext).
    rewrite Ht. cbn [py_strip]. change (strip "") with "". cbn [nonempty map].
    unfold ret. now rewrite with_more_nil.
Qed.

Lemma load_pages_wf (name : json) (pages : list json) (self : t) :
  forallb page_wf pages = true ->
  for_each pages (load_page name) self
  = (Ok tt, with_more self (map chunk_of (filter has_text (map (pair name) pages)))).
Proof.
  revert self. induction pages as [|p pages IH]; intros self Hwf.
  - simpl. now rewrite with_more_nil.
  - simpl in Hwf. apply andb_prop in Hwf as [Hp Hrest].
    cbn [for_each]. unfold bind. rewrite (load_page_wf _ _ _ Hp).
    rewrite (IH _ Hrest), with_more_more, <- map_app.
    change (map (pair name) (p :: pages))
      with ([(name, p)] ++ map (pair name) pages).
    now rewrite filter_app.
Qed.

Lemma load_item_wf (r : json) (self : t) :
  record_wf r = true ->
  load_item r self
  = (Ok tt, with_more self (map chunk_of (filter has_text (record_pages r)))).
Proof.
  intros Hwf. unfold record_wf in Hwf. unfold record_pages.
  destruct r as [| | | |?|kv]; try discriminate. simpl in *.
  unfold load_item, bind, lift. simpl.
  destruct (assoc "file_name" kv) as [[| | |name| |]|]; try discriminate.
  destruct (assoc "content" kv) as [[| | | |pages|]|]; try discriminate.
  simpl. now apply load_pages_wf.
Qed.

Lemma corpus_chunks_cons (r : json) (records : list json) :
  corpus_chunks (JArr (r :: records))
  = map chunk_of (filter has_text (record_pages r)) ++ corpus_chunks (JArr records).
Proof. unfold corpus_chunks; simpl. now rewrite filter_app, map_app. Qed.

Lemma corpus_chunks_app (xs ys : list json) :
  corpus_chunks (JArr (xs ++ ys))
  = corpus_chunks (JArr xs) ++ corpus_chunks (JArr ys).
Proof.
  induction xs as [|x xs IH]; [reflexivity|].
  simpl app. now rewrite !corpus_chunks_cons, IH, app_assoc.
Qed.

Lemma load_items_wf (records : list json) (self : t) :
  forallb record_wf records = true ->
  for_each records load_item self
  = (Ok tt, with_more self (corpus_chunks (JArr records))).
Proof.
  revert self. induction records as [|r records IH]; intros self Hwf.
  - simpl. now rewrite with_more_nil.
  - simpl in Hwf. apply andb_prop in Hwf as [Hr Hrest].
    cbn [for_each]. unfold bind. rewrite (load_item_wf _ _ Hr).
    now rewrite (IH _ Hrest), with_more_more, corpus_chunks_cons.
Qed.

(* A record that lacks a required field ends its turn of the outer loop with
   an exception before any page is read. *)
Lemma load_item_incomplete (r : json) (self : t) :
  record_incomplete r = true ->
  exists e, load_item r self = (Raise e, self).
Proof.
  intros Hbad. destruct r as [| | | |?|kv]; try discriminate. simpl in Hbad.
  unfold load_item, bind, lift. simpl.
  destruct (assoc "file_name" kv); [|eauto].
  destruct (assoc "content" kv); [discriminate|eauto].
Qed.

(* load_documents returns, whatever the file holds. *)
Lemma load_documents_returns (file : Result json) (self : t) :
  exists b, fst (load_documents file self) = Ok b.
Proof.
  unfold load_documents, try_except.
  match goal with |- context [match ?c with _ => _ end] => destruct c as [[b|e] s] end;
    simpl; eauto.
Qed.

(* A well-formed corpus: the call returns True and the chunk list is the
   list of the corpus' chunks, whatever it was before. *)
Lemma load_documents_wf (data : json) (self : t) :
  corpus_wf data = true ->
  load_documents (Ok data) self
  = (Ok true, with_documents self (corpus_chunks data)).
Proof.
  intros Hwf. destruct data as [| | | |records|]; try discriminate.
  unfold load_documents, try_except, bind, lift, set_documents. simpl.
  fold (with_documents self []).
  rewrite (load_items_wf _ _ Hwf). reflexivity.
Qed.

End Ingestion.

(** ** Claims on load_documents and build_vectorstore *)

Section IngestionClaims.

Import DocumentManager.

(** C4, as the code has it. On a corpus whose records are well formed up to
    one that lacks [file_name] or [content], load_documents raises nothing:
    it returns False. The chunk list it leaves is the list of the chunks of
    the records before the incomplete one: what the store held before the
    call is dropped, and the index and the retriever are left as they
    were. *)
Theorem load_documents_incomplete_record
  (self : t) (good : list json) (bad : json) (rest : list json) :
  forallb record_wf good = true ->
  record_incomplete bad = true ->
  load_documents (Ok (JArr (good ++ bad :: rest))) self
  = (Ok false, with_documents self (corpus_chunks (JArr good))).
Proof.
  intros Hgood Hbad.
  unfold load_documents, try_except, bind at 1 2 3, lift, set_documents.
  cbn [py_iter]. fold (with_documents self []).
  unfold bind at 1. rewrite for_each_app. unfold bind at 1.
  rewrite (load_items_wf _ _ Hgood), with_more_reset.
  cbn [for_each]. unfold bind.
  destruct (load_item_incomplete bad
              (with_documents self (corpus_chunks (JArr good))) Hbad) as [e He].
  rewrite He. reflexivity.
Qed.

Lemma load_documents_incomplete_record_witness :
  forallb record_wf [sample_record] = true
  /\ record_incomplete (JObj [("content", JArr [sample_page])]) = true
  /\ load_documents (Ok broken_corpus) (init sample_embed)
     = (Ok false,
        with_documents (init sample_embed) (corpus_chunks (JArr [sample_record]))).
Proof.
  split; [reflexivity|]. split; [reflexivity|].
  apply (load_documents_incomplete_record (init sample_embed) [sample_record]
           (JObj [("content", JArr [sample_page])]) []); reflexivity.
Defined.

(** C4, counterexample. On [broken_corpus], whose second record has no
    [file_name], the call on a fresh store returns False, no exception
    reaches the caller, and the chunk of the first record stays in the
    store. *)
Lemma load_documents_keeps_partial_chunks :
  fst (load_documents (Ok broken_corpus) (init sample_embed)) = Ok false
  /\ documents (snd (load_documents (Ok broken_corpus) (init sample_embed)))
     = [mkDocument "riba is prohibited" [("source", JStr "A"); ("page", JNum 1)]].
Proof. split; reflexivity. Qed.

(* build_vectorstore on a store that holds chunks: an index with one entry
   per chunk. *)
Lemma build_vectorstore_chunks (self : t) :
  documents self <> [] ->
  build_vectorstore self
  = (Ok true,
     mk (embedding_model self) (documents self)
        (Some (from_documents (documents self) (embedding_model self)))
        (Some (mkRetriever (from_documents (documents self) (embedding_model self))))).
Proof.
  intros Hne. unfold build_vectorstore.
  destruct (documents self); [contradiction|reflexivity].
Qed.

Lemma from_documents_size (docs : list Document) (embed : string -> Embedding) :
  List.length (index (from_documents docs embed)) = List.length docs.
Proof. unfold from_documents; simpl. apply length_map. Qed.

(** C6, as the code has it. For a well-formed corpus with M page entries
    whose text is non-empty after trimming, load_documents returns True and
    leaves exactly M chunks, one per such entry in file order, each with the
    trimmed text, the file name as source and the page number. When M is at
    least 1, build_vectorstore then returns True and the store holds an
    index of exactly M entries; when M is 0 it returns False and the store
    is left as it was. *)
Theorem ingest_then_build_index (self : t) (data : json) :
  corpus_wf data = true ->
  let M := List.length (filter has_text (corpus_pages data)) in
  let loaded := snd (load_documents (Ok data) self) in
  let built := snd (build_vectorstore loaded) in
  fst (load_documents (Ok data) self) = Ok true
  /\ documents loaded = map chunk_of (filter has_text (corpus_pages data))
  /\ List.length (documents loaded) = M
  /\ (1 <= M ->
      fst (build_vectorstore loaded) = Ok true
      /\ exists vs, vectorstore built = Some vs
                    /\ List.length (index vs) = M
                    /\ map snd (index vs) = documents loaded)
  /\ (M = 0 -> build_vectorstore loaded = (Ok false, loaded)).
Proof.
  intros Hwf M loaded built. subst built loaded.
  rewrite (load_documents_wf _ self Hwf). cbn [fst snd].
  assert (HM : List.length (corpus_chunks data) = M)
    by (unfold corpus_chunks; apply length_map).
  repeat split.
  - exact HM.
  - rewrite build_vectorstore_chunks; [reflexivity|].
    cbn [documents with_documents]. intros E. rewrite E in HM. simpl in HM. lia.
  - rewrite build_vectorstore_chunks.
    + cbn [snd vectorstore documents with_documents embedding_model].
      eexists; split; [reflexivity|]. split.
      * now rewrite from_documents_size.
      * unfold from_documents; cbn [index]. rewrite map_map. cbn [snd].
        apply map_id.
    + cbn [documents with_documents]. intros E. rewrite E in HM. simpl in HM. lia.
  - intros HM0. unfold build_vectorstore. cbn [documents with_documents].
    destruct (corpus_chunks data); [reflexivity|]. simpl in HM. lia.
Qed.

Lemma ingest_then_build_index_witness :
  corpus_wf sample_corpus = true
  /\ fst (load_documents (Ok sample_corpus) (init sample_embed)) = Ok true
  /\ List.length
       (documents (snd (load_documents (Ok sample_corpus) (init sample_embed))))
     = 1.
Proof.
  split; [reflexivity|].
  pose proof (ingest_then_build_index (init sample_embed) sample_corpus eq_refl)
    as [Hret [_ [Hlen _]]].
  split; [exact Hret | exact Hlen].
Defined.

(** C6, counterexample. [blank_corpus] has one page entry and none with
    text (M = 0). On a fresh store, ingest then build_vectorstore leaves no
    index at all; on a store that already indexed [sample_corpus], they leave
    that index, of one entry. Neither is an index of M entries. *)
Lemma build_index_on_blank_corpus :
  List.length (filter has_text (corpus_pages blank_corpus)) = 0
  /\ vectorstore
       (snd (build_vectorstore
               (snd (load_documents (Ok blank_corpus) (init sample_embed)))))
     = None
  /\ option_map (fun vs => List.length (index vs))
       (vectorstore
          (snd (build_vectorstore
                  (snd (load_documents (Ok blank_corpus)
                          (snd (build_vectorstore
                                  (snd (load_documents (Ok sample_corpus)
                                          (init sample_embed))))))))))
     = Some 1.
Proof. repeat split. Qed.

(** C10. For a well-formed corpus file, each of two calls in a row returns
    True, and the second leaves the store exactly as the first did: the
    chunk list is the list of the corpus' chunks whatever the store held
    before, so the chunk count after two calls is the count after one. *)
Theorem load_documents_twice (self : t) (data : json) :
  corpus_wf data = true ->
  let once := snd (load_documents (Ok data) self) in
  let twice := snd (load_documents (Ok data) once) in
  fst (load_documents (Ok data) self) = Ok true
  /\ fst (load_documents (Ok data) once) = Ok true
  /\ documents once = corpus_chunks data
  /\ twice = once
  /\ List.length (documents twice) = List.length (documents once).
Proof.
  intros Hwf once twice. subst twice once.
  rewrite !(load_documents_wf _ _ Hwf). cbn [fst snd].
  repeat split.
Qed.

Lemma load_documents_twice_witness :
  corpus_wf sample_corpus = true
  /\ List.length
       (documents
          (snd (load_documents (Ok sample_corpus)
                  (snd (load_documents (Ok sample_corpus) (init sample_embed))))))
     = List.length
         (documents (snd (load_documents (Ok sample_corpus) (init sample_embed)))).
Proof.
  split; [reflexivity|].
  exact (proj2 (proj2 (proj2 (proj2
           (load_documents_twice (init sample_embed) sample_corpus eq_refl))))).
Defined.

End IngestionClaims.

(** ** Slices of strings *)

Lemma slice_to_length (n : nat) (s : string) :
  String.length (slice_to n s) = Nat.min n (String.length s).
Proof.
  unfold slice_to. revert n.
  induction s as [|c s IH]; intros [|n]; simpl; try reflexivity.
  now rewrite IH.
Qed.

Lemma slice_to_prefix (n : nat) (s : string) :
  prefix (slice_to n s) s = true.
Proof.
  unfold slice_to. revert n.
  induction s as [|c s IH]; intros [|n]; simpl; try reflexivity.
  destruct (ascii_dec c c) as [_|Hne]; [apply IH | now destruct Hne].
Qed.

Lemma slice_to_all (n : nat) (s : string) :
  String.length s <= n -> slice_to n s = s.
Proof.
  unfold slice_to. revert n.
  induction s as [|c s IH]; intros [|n] Hlen; simpl in *; try reflexivity.
  - lia.
  - f_equal. apply IH. lia.
Qed.

Lemma slice_to_append (n : nat) (s tail : string) :
  n <= String.length s -> slice_to n (s ++ tail) = slice_to n s.
Proof.
  unfold slice_to. revert n.
  induction s as [|c s IH]; intros [|n] Hlen; simpl in *; try reflexivity.
  - now destruct tail.
  - lia.
  - f_equal. apply IH. lia.
Qed.

Lemma slice_to_idem (n : nat) (s : string) :
  slice_to n (slice_to n s) = slice_to n s.
Proof. apply slice_to_all. rewrite slice_to_length. lia. Qed.

Lemma append_length (a b : string) :
  String.length (a ++ b) = String.length a + String.length b.
Proof. induction a as [|c a IH]; simpl; [reflexivity | now rewrite IH]. Qed.

Lemma prefix_refl (s : string) : prefix s s = true.
Proof.
  induction s as [|c s IH]; simpl; [reflexivity|].
  destruct (ascii_dec c c) as [_|Hne]; [exact IH | now destruct Hne].
Qed.


(** ** The context formatter *)

Section ContextFormatter.

Import AAOIFIAgentChain.

Lemma context_parts_rendered (i : nat) (docs : list Document) :
  context_parts i docs
  = map (fun entry : nat * Document => rendered_hit (fst entry) (snd entry))
        (combine (seq (S i) (List.length docs)) docs).
Proof.
  revert i. induction docs as [|doc docs IH]; intros i; [reflexivity|].
  cbn [context_parts List.length seq combine map fst snd].
  rewrite IH. unfold rendered_hit at 2.
  now replace (i + 1) with (S i) by lia.
Qed.

(* What the call returns and what it adds to the trace. *)
Lemma retrieve_relevant_documents_run (self : t) (query : string) (k : nat)
  (tr : Trace) :
  _retrieve_relevant_documents self query k tr
  = (Ok (context_text self query k), tr ++ retrieval_events self query k).
Proof.
  unfold _retrieve_relevant_documents, context_text, retrieval_events.
  destruct (retriever self) as [r|].
  - unfold try_except, bind, call, ret.
    destruct (get_relevant_documents r query k) as [[|doc docs]|e];
      try reflexivity.
    unfold rendered_hits. now rewrite context_parts_rendered.
  - unfold ret. now rewrite app_nil_r.
Qed.

End ContextFormatter.

(** ** The three-stage chain *)

Section StageChain.

Import AAOIFIAgentChain.

(* process_standard, stage by stage: each stage asks for context, then
   invokes its chain; the first exception ends the run. *)
Lemma process_standard_run (self : t) (input_text : string) (tr : Trace) :
  process_standard self input_text tr
  = match invoke self Review
            (review_inputs input_text
               (context_text self (query_of input_text) 3)) with
    | Raise e => (Raise e, tr ++ review_calls self input_text)
    | Ok s1 =>
        match invoke self Enhancement
                (enhancement_inputs s1 (context_text self s1 3)) with
        | Raise e =>
            (Raise e,
             tr ++ review_calls self input_text ++ enhancement_calls self s1)
        | Ok s2 =>
            match invoke self Validation
                    (validation_inputs input_text s2
                       (context_text self s2 3)) with
            | Raise e =>
                (Raise e,
                 tr ++ review_calls self input_text
                    ++ enhancement_calls self s1
                    ++ validation_calls self input_text s2)
            | Ok s3 =>
                (Ok (mkOutput s1 s2 s3),
                 tr ++ review_calls self input_text
                    ++ enhancement_calls self s1
                    ++ validation_calls self input_text s2)
            end
        end
    end.
Proof.
  unfold process_standard, review_calls, enhancement_calls, validation_calls,
    review_inputs, enhancement_inputs, validation_inputs.
  unfold bind at 1. rewrite retrieve_relevant_documents_run.
  unfold bind at 1. unfold call at 1.
  destruct (invoke self Review _) as [s1|e];
    [|now rewrite <- !app_assoc].
  unfold bind at 1. rewrite retrieve_relevant_documents_run.
  unfold bind at 1. unfold call at 1.
  destruct (invoke self Enhancement _) as [s2|e];
    [|now rewrite <- !app_assoc].
  unfold bind at 1. rewrite retrieve_relevant_documents_run.
  unfold bind at 1. unfold call at 1.
  destruct (invoke self Validation _) as [s3|e];
    unfold ret; now rewrite <- !app_assoc.
Qed.










End StageChain.

(** ** Numbers *)

Lemma round_half_even_integer (q : Q) (z : Z) :
  (q == inject_Z z)%Q -> round_half_even q = z.
Proof.
  destruct q as [n d]. unfold Qeq, round_half_even. simpl. intros Heq.
  assert (Hn : n = (z * Zpos d)%Z) by lia. subst n.
  rewrite Z.div_mul, Z.mod_mul by lia. reflexivity.
Qed.

Lemma round2_of_100 (x : Q) : (x == 100)%Q -> round2 x = 100%Q.
Proof.
  intros Hx. unfold round2.
  rewrite (round_half_even_integer (x * 100) 10000).
  - reflexivity.
  - rewrite Hx. reflexivity.
Qed.

Lemma py_div_by_zero (a b : Q) :
  (b == 0)%Q -> py_div a b = Raise ZeroDivisionError.
Proof.
  intros Hb. unfold py_div. now rewrite (Qeq_eq_bool _ _ Hb).
Qed.

Lemma py_max_in (x : Q) (xs : list Q) : In (py_max x xs) (x :: xs).
Proof.
  unfold py_max. revert x. induction xs as [|y ys IH]; intros x.
  - now left.
  - cbn [fold_left]. destruct (Qle_bool y x).
    + destruct (IH x) as [H|H]; [left; exact H | right; right; exact H].
    + right. destruct (IH y) as [H|H]; [left; exact H | right; exact H].
Qed.

Lemma py_max_ge_first (x : Q) (xs : list Q) : (x <= py_max x xs)%Q.
Proof.
  unfold py_max. revert x. induction xs as [|y ys IH]; intros x.
  - apply Qle_refl.
  - cbn [fold_left]. destruct (Qle_bool y x) eqn:E; [apply IH|].
    apply Qle_trans with y; [|apply IH].
    apply Qlt_le_weak, Qnot_le_lt. intros Hle.
    apply Qle_bool_iff in Hle. congruence.
Qed.

Lemma py_max_ge (x : Q) (xs : list Q) (y : Q) :
  In y (x :: xs) -> (y <= py_max x xs)%Q.
Proof.
  intros [<-|Hin]; [apply py_max_ge_first|].
  unfold py_max. revert x. induction xs as [|z zs IH]; intros x; [contradiction|].
  cbn [fold_left]. destruct Hin as [<-|Hin]; [|now apply IH].
  destruct (Qle_bool z x) eqn:E.
  - apply Qle_trans with x; [now apply Qle_bool_iff | apply py_max_ge_first].
  - apply py_max_ge_first.
Qed.

Lemma round_half_even_between (q : Q) (a b : Z) :
  (inject_Z a <= q)%Q -> (q <= inject_Z b)%Q ->
  (a <= round_half_even q <= b)%Z.
Proof.
  destruct q as [n d]. unfold Qle, round_half_even.
  cbn [Qnum Qden inject_Z]. rewrite !Z.mul_1_r. intros Ha Hb.
  assert (Hfa : (a <= n / Zpos d)%Z)
    by (apply Z.div_le_lower_bound; lia).
  assert (Hfb : (n / Zpos d <= b)%Z)
    by (apply Z.div_le_upper_bound; lia).
  pose proof (Z.div_mod n (Zpos d) ltac:(lia)) as Hdm.
  pose proof (Z.mod_pos_bound n (Zpos d) ltac:(lia)) as Hr.
  set (f := (n / Zpos d)%Z) in *. set (r := (n mod Zpos d)%Z) in *.
  assert (Hup : (0 < r -> f + 1 <= b)%Z).
  { intros Hpos. destruct (Z.eq_dec f b) as [Hfb'|Hne]; [|lia].
    exfalso. rewrite Hfb' in Hdm. lia. }
  destruct (Z.compare_spec (2 * r) (Zpos d)) as [Heq|Hlt|Hgt].
  - destruct (Z.even f); [lia|]. split; [lia|]. apply Hup. lia.
  - lia.
  - split; [lia|]. apply Hup. lia.
Qed.

Lemma round2_between_0_100 (x : Q) :
  (0 <= x)%Q -> (x <= 100)%Q -> (0 <= round2 x)%Q /\ (round2 x <= 100)%Q.
Proof.
  intros H0 H100. unfold round2.
  destruct (round_half_even_between (x * 100) 0 10000) as [Hlo Hhi].
  - change (inject_Z 0) with (0 * 100)%Q.
    apply Qmult_le_compat_r; [exact H0 | discriminate].
  - change (inject_Z 10000) with (100 * 100)%Q.
    apply Qmult_le_compat_r; [exact H100 | discriminate].
  - rewrite !Qred_correct. unfold Qle. simpl. lia.
Qed.

(** ** The relevance scorer *)

Section RelevanceScorer.

Import AAOIFIAgentChain.

Lemma max_score_of_in (hits : list (Document * Q)) :
  hits <> [] -> In (max_score_of hits) (map snd hits).
Proof.
  intros Hne. unfold max_score_of.
  destruct hits as [|hit rest]; [contradiction|].
  cbn [map]. apply py_max_in.
Qed.

(* A returned list of rules follows the hits one by one. *)
Lemma rules_of_matches (m : Q) (hits : list (Document * Q)) (rules : list Rule) :
  rules_of m hits = Ok rules -> Forall2 (rule_matches m) hits rules.
Proof.
  revert rules. induction hits as [|[doc score] rest IH]; intros rules.
  - intros [= <-]. constructor.
  - cbn [rules_of rule_of]. unfold py_div.
    destruct (Qeq_bool m 0); [discriminate|].
    destruct (rules_of m rest) as [rs|e]; [|discriminate].
    intros [= <-]. constructor; [|now apply IH].
    unfold rule_matches. cbn. repeat split.
Qed.

Lemma rules_of_zero_max (m : Q) (hits : list (Document * Q)) :
  (m == 0)%Q -> hits <> [] -> rules_of m hits = Raise ZeroDivisionError.
Proof.
  intros Hm Hne. destruct hits as [|[doc score] rest]; [contradiction|].
  cbn [rules_of rule_of]. now rewrite (py_div_by_zero _ _ Hm).
Qed.

(* find_relevant_fas_rules, read off the hits of the search. *)
Lemma find_relevant_fas_rules_run (self : t) (context question : string)
  (tr : Trace) (hits : list (Document * Q)) :
  fst (_retrieve_top_fas_rules self (qa_query context question) 3 tr) = Ok hits ->
  fst (find_relevant_fas_rules self context question tr)
  = match hits with
    | [] => Ok (mkReport
                  "No relevant FAS rules found or retriever not available." [])
    | _ :: _ =>
        match rules_of (max_score_of hits) hits with
        | Ok rules =>
            Ok (mkReport ("Found " ++ str_of_nat (List.length rules)
                            ++ " relevant FAS rules.")%string rules)
        | Raise e => Raise e
        end
    end.
Proof.
  unfold find_relevant_fas_rules, bind.
  destruct (_retrieve_top_fas_rules self (qa_query context question) 3 tr)
    as [res tr'].
  cbn [fst]. intros ->. destruct hits as [|hit rest]; [reflexivity|].
  unfold lift. destruct (rules_of _ _); reflexivity.
Qed.

(** C1, the code at the failing input. The vector store of
    [unscored_retriever] has no similarity_search_with_score, so
    _retrieve_top_fas_rules gives every hit the placeholder score 0.0; the
    largest score is then 0 and find_relevant_fas_rules ends with
    ZeroDivisionError at the division by max_score: no percentage is
    produced. *)
Theorem find_relevant_fas_rules_placeholder_scores :
  fst (_retrieve_top_fas_rules (mk answering (Some unscored_retriever))
         (qa_query "context" "question") 3 [])
  = Ok [(doc_a, 0%Q); (doc_b, 0%Q)]
  /\ fst (find_relevant_fas_rules (mk answering (Some unscored_retriever))
            "context" "question" [])
     = Raise ZeroDivisionError.
Proof. split; reflexivity. Qed.

(** C8, as the code has it. The content_snippet of a rule is the chunk text
    itself when the text has at most 200 characters; otherwise it is the
    first 200 characters of the text followed by "...". It has at most
    203 characters. Its first 200 characters are a prefix of the chunk
    text; the snippet of a text of at most 200 characters is a prefix of
    the text, the text itself. *)
Theorem content_snippet_shape (max_score : Q) (doc : Document) (score : Q)
  (rule : Rule) :
  rule_of max_score (doc, score) = Ok rule ->
  let text := page_content doc in
  let snip := content_snippet rule in
  String.length snip <= 203
  /\ (String.length text <= 200 -> snip = text /\ prefix snip text = true)
  /\ (200 < String.length text ->
      snip = (slice_to 200 text ++ "...")%string
      /\ String.length (slice_to 200 text) = 200)
  /\ prefix (slice_to 200 snip) text = true.
Proof.
  cbn [rule_of]. destruct (py_div score max_score) as [ratio|e]; [|discriminate].
  intros [= <-]. cbn [content_snippet]. unfold snippet_of.
  destruct (Nat.ltb 200 (String.length (page_content doc))) eqn:E.
  - apply Nat.ltb_lt in E.
    assert (Hlen : String.length (slice_to 200 (page_content doc)) = 200)
      by (rewrite slice_to_length; lia).
    repeat split.
    + rewrite append_length, Hlen. simpl. lia.
    + lia.
    + lia.
    + exact Hlen.
    + rewrite slice_to_append by lia. rewrite slice_to_idem.
      apply slice_to_prefix.
  - apply Nat.ltb_ge in E. repeat split.
    + lia.
    + apply prefix_refl.
    + lia.
    + lia.
    + apply slice_to_prefix.
Qed.

Lemma content_snippet_shape_witness :
  rule_of 1 (doc_a, 1%Q) = Ok (mkRule (JStr "A") (JNum 1) "hello" 100%Q)
  /\ prefix (slice_to 200 "hello") (page_content doc_a) = true.
Proof.
  split; [reflexivity|].
  exact (proj2 (proj2 (proj2
           (content_snippet_shape 1 doc_a 1
              (mkRule (JStr "A") (JNum 1) "hello" 100%Q) eq_refl)))).
Defined.

(** C8, counterexample. For a chunk text of 201 characters the snippet is
    its first 200 characters followed by "...", 203 characters in all, and
    that is not a prefix of the chunk text. *)
Lemma truncated_snippet_is_not_a_prefix :
  String.length long_text = 201
  /\ (exists rule,
        rule_of 1 (mkDocument long_text [], 1%Q) = Ok rule
        /\ String.length (content_snippet rule) = 203
        /\ prefix (content_snippet rule) long_text = false).
Proof.
  split; [reflexivity|]. eexists. split; [reflexivity|].
  split; reflexivity.
Qed.

Lemma Forall2_Exists_transfer {A B} (P : A -> Prop) (Q : B -> Prop)
  (R : A -> B -> Prop) (xs : list A) (ys : list B) :
  Forall2 R xs ys ->
  (forall x y, R x y -> P x -> Q y) ->
  Exists P xs -> Exists Q ys.
Proof.
  intros Hall Himp. induction Hall as [|x y xs ys Hxy Hrest IH]; intros Hex.
  - inversion Hex.
  - inversion Hex; subst; [left; eauto | right; auto].
Qed.

Lemma max_score_of_ge (hits : list (Document * Q)) (hit : Document * Q) :
  In hit hits -> (snd hit <= max_score_of hits)%Q.
Proof.
  intros Hin. unfold max_score_of.
  destruct hits as [|first rest]; [contradiction|].
  cbn [map]. apply py_max_ge. change (In (snd hit) (map snd (first :: rest))).
  now apply in_map.
Qed.

Lemma percentage_between_0_100 (score max_score : Q) :
  (0 <= score)%Q -> (score <= max_score)%Q -> (0 < max_score)%Q ->
  (0 <= score / max_score * 100)%Q /\ (score / max_score * 100 <= 100)%Q.
Proof.
  intros H0 Hle Hpos. split.
  - apply Qmult_le_0_compat; [|discriminate].
    apply Qle_shift_div_l; [exact Hpos|]. now rewrite Qmult_0_l.
  - change (100 : Q) with (1 * 100)%Q at 2.
    apply Qmult_le_compat_r; [|discriminate].
    apply Qle_shift_div_r; [exact Hpos|]. now rewrite Qmult_1_l.
Qed.

End RelevanceScorer.

(** * Further properties of the code *)

(** ** str.strip() *)

Lemma lstrip_chars_head (l : list ascii) :
  match lstrip_chars l with
  | [] => True
  | c :: _ => is_space c = false
  end.
Proof.
  induction l as [|c l IH]; simpl; [exact I|].
  destruct (is_space c) eqn:E; [exact IH | exact E].
Qed.

Lemma lstrip_chars_fixed (l : list ascii) :
  match l with [] => True | c :: _ => is_space c = false end ->
  lstrip_chars l = l.
Proof. destruct l as [|c l]; simpl; [reflexivity|]. now intros ->. Qed.

Lemma lstrip_chars_keeps_last (l : list ascii) (c : ascii) :
  is_space c = false -> exists p, lstrip_chars (l ++ [c]) = p ++ [c].
Proof.
  intros Hc. induction l as [|x l [p IH]]; simpl.
  - rewrite Hc. now exists [].
  - destruct (is_space x); [now exists p | now exists (x :: l)].
Qed.

(* Trimming a trimmed text changes nothing. *)
Lemma strip_idempotent (s : string) : strip (strip s) = strip s.
Proof.
  unfold strip, str, chars. rewrite list_ascii_of_string_of_list_ascii.
  set (a := lstrip_chars (list_ascii_of_string s)).
  assert (Hrev : lstrip_chars (rev (lstrip_chars (rev a)))
                 = rev (lstrip_chars (rev a))).
  { apply lstrip_chars_fixed. pose proof (lstrip_chars_head (list_ascii_of_string s)) as Ha.
    fold a in Ha. destruct a as [|c a']; [exact I|].
    simpl rev at 2. destruct (lstrip_chars_keeps_last (rev a') c Ha) as [p ->].
    rewrite rev_app_distr. exact Ha. }
  rewrite Hrev, rev_involutive.
  rewrite (lstrip_chars_fixed (lstrip_chars (rev a)));
    [reflexivity | apply lstrip_chars_head].
Qed.

Lemma strip_trimmed (s : string) : trimmed (strip s) = true.
Proof. unfold trimmed. rewrite strip_idempotent. apply String.eqb_refl. Qed.

(** ** load_documents on any file *)

Section AnyFile.

Import DocumentManager.

Lemma appends_ret {A} (P : Document -> Prop) (a : A) : appends P (ret a).
Proof.
  exists (Ok a), []. split; [constructor|].
  intros self. unfold ret. now rewrite with_more_nil.
Qed.

Lemma appends_lift_bind {A B} (P : Document -> Prop) (r : Result A)
  (k : A -> Py t B) :
  (forall a, r = Ok a -> appends P (k a)) -> appends P (bind (lift r) k).
Proof.
  intros Hk. destruct r as [a|e].
  - destruct (Hk a eq_refl) as [r' [docs [HP Hrun]]].
    exists r', docs. split; [exact HP|]. intros self. unfold bind, lift. apply Hrun.
  - exists (Raise e), []. split; [constructor|].
    intros self. unfold bind, lift. now rewrite with_more_nil.
Qed.

Lemma appends_bind {A B} (P : Document -> Prop) (c : Py t A) (k : A -> Py t B) :
  appends P c -> (forall a, appends P (k a)) -> appends P (bind c k).
Proof.
  intros [r [docs [HP Hrun]]] Hk. destruct r as [a|e].
  - destruct (Hk a) as [r' [docs' [HP' Hrun']]].
    exists r', (docs ++ docs'). split; [now apply Forall_app|].
    intros self. unfold bind. now rewrite Hrun, Hrun', with_more_more.
  - exists (Raise e), docs. split; [exact HP|].
    intros self. unfold bind. now rewrite Hrun.
Qed.

Lemma appends_for_each {A} (P : Document -> Prop) (xs : list A)
  (body : A -> Py t unit) :
  (forall x, appends P (body x)) -> appends P (for_each xs body).
Proof.
  intros Hbody. induction xs as [|x xs IH]; cbn [for_each].
  - apply appends_ret.
  - apply appends_bind; [apply Hbody | intros _; exact IH].
Qed.

Lemma appends_append_document (P : Document -> Prop) (doc : Document) :
  P doc -> appends P (append_document doc).
Proof.
  intros Hdoc. exists (Ok tt), [doc]. split; [now constructor|].
  intros self. reflexivity.
Qed.

Lemma load_page_appends (name page : json) :
  appends chunk_ok (load_page name page).
Proof.
  unfold load_page. apply appends_lift_bind. intros raw _.
  apply appends_lift_bind. intros text Htext.
  destruct (nonempty text) eqn:Hne; [|apply appends_ret].
  apply appends_lift_bind. intros number _.
  apply appends_append_document. unfold chunk_ok. cbn [page_content metadata].
  split; [exact Hne|]. split; [|eauto].
  destruct raw; try discriminate. injection Htext as <-. apply strip_trimmed.
Qed.

Lemma load_item_appends (item : json) : appends chunk_ok (load_item item).
Proof.
  unfold load_item. apply appends_lift_bind. intros name _.
  apply appends_lift_bind. intros content _.
  apply appends_lift_bind. intros pages _.
  apply appends_for_each. intros page. apply load_page_appends.
Qed.

(* What a call on parsed data does to any store: it returns a bool and
   replaces the chunk list by a list that the data alone decides. *)
Lemma load_documents_parsed (data : json) :
  exists (b : bool) (docs : list Document),
    Forall chunk_ok docs
    /\ forall self,
         load_documents (Ok data) self = (Ok b, with_documents self docs).
Proof.
  assert (Hbody : appends chunk_ok
            (items <- lift (py_iter data) ;;
             for_each items load_item ;;; ret true)).
  { apply appends_lift_bind. intros items _.
    apply appends_bind; [|intros _; apply appends_ret].
    apply appends_for_each. intros item. apply load_item_appends. }
  destruct Hbody as [r [docs [HP Hrun]]].
  exists (match r with Ok b => b | Raise _ => false end), docs.
  split; [exact HP|]. intros self.
  unfold load_documents, try_except. unfold bind at 1. unfold lift at 1.
  unfold bind at 1. unfold set_documents at 1. fold (with_documents self []).
  rewrite Hrun, with_more_reset. destruct r; reflexivity.
Qed.

End AnyFile.

Section IngestionExtras.

Import DocumentManager.

(** load_documents never raises and never touches the index. Whatever the
    file holds and whatever the store holds, the call returns a bool and
    leaves the embedding model, the index and the retriever as they were; a
    file that cannot be opened or parsed makes it return False with the
    chunk list untouched as well. *)
Theorem load_documents_keeps_index (file : Result json) (self : t) :
  (exists b, fst (load_documents file self) = Ok b)
  /\ embedding_model (snd (load_documents file self)) = embedding_model self
  /\ vectorstore (snd (load_documents file self)) = vectorstore self
  /\ retriever (snd (load_documents file self)) = retriever self
  /\ (forall e, file = Raise e -> load_documents file self = (Ok false, self)).
Proof.
  destruct file as [data|e].
  - destruct (load_documents_parsed data) as [b [docs [_ Hrun]]].
    rewrite Hrun. cbn. repeat split; eauto. discriminate.
  - cbn. repeat split; eauto.
Qed.

(** Every chunk that load_documents leaves in the store, on any parsed data
    and well formed or not, has a text that is non-empty and trimmed (strip
    leaves it as it is), and a metadata dict with exactly the keys source and
    page. *)
Theorem load_documents_chunks_ok (data : json) (self : t) (doc : Document) :
  In doc (documents (snd (load_documents (Ok data) self))) ->
  nonempty (page_content doc) = true
  /\ strip (page_content doc) = page_content doc
  /\ exists src number, metadata doc = [("source", src); ("page", number)].
Proof.
  destruct (load_documents_parsed data) as [b [docs [Hok Hrun]]].
  rewrite Hrun. cbn [snd documents with_documents]. intros Hin.
  rewrite Forall_forall in Hok. destruct (Hok doc Hin) as [Hne [Htrim Hmeta]].
  split; [exact Hne|]. split; [|exact Hmeta].
  now apply String.eqb_eq.
Qed.

Lemma load_documents_chunks_ok_witness :
  In (mkDocument "riba is prohibited" [("source", JStr "A"); ("page", JNum 1)])
     (documents (snd (load_documents (Ok broken_corpus) (init sample_embed))))
  /\ strip "riba is prohibited" = "riba is prohibited".
Proof.
  assert (Hin : In (mkDocument "riba is prohibited"
                      [("source", JStr "A"); ("page", JNum 1)])
                   (documents (snd (load_documents (Ok broken_corpus)
                                      (init sample_embed)))))
    by (left; reflexivity).
  split; [exact Hin|].
  exact (proj1 (proj2 (load_documents_chunks_ok broken_corpus
                         (init sample_embed) _ Hin))).
Defined.

(** What load_documents leaves and returns on parsed data is decided by the
    data alone: two stores, whatever they held, end with the same chunk list
    and the same return value, and a second call on the same data changes
    nothing more. This holds for malformed data too. *)
Theorem load_documents_forgets_store (data : json) (self other : t) :
  fst (load_documents (Ok data) self) = fst (load_documents (Ok data) other)
  /\ documents (snd (load_documents (Ok data) self))
     = documents (snd (load_documents (Ok data) other))
  /\ load_documents (Ok data) (snd (load_documents (Ok data) self))
     = load_documents (Ok data) self.
Proof.
  destruct (load_documents_parsed data) as [b [docs [_ Hrun]]].
  rewrite !Hrun. cbn [fst snd]. rewrite ?Hrun. repeat split.
Qed.

(** Rebuilding replaces the index. After load_documents on a well-formed
    corpus with at least one chunk and build_vectorstore, whatever index the
    store held before, the index has one entry per chunk of that corpus, in
    order, each with the embedding of the chunk's text, and get_retriever
    returns a retriever over that same index. *)
Theorem rebuild_replaces_index (self : t) (data : json) :
  corpus_wf data = true ->
  corpus_chunks data <> [] ->
  let rebuilt :=
    snd (build_vectorstore (snd (load_documents (Ok data) self))) in
  vectorstore rebuilt
  = Some (mkFAISS (map (fun d => (embedding_model self (page_content d), d))
                       (corpus_chunks data)))
  /\ get_retriever rebuilt
     = option_map mkRetriever (vectorstore rebuilt)
  /\ documents rebuilt = corpus_chunks data.
Proof.
  intros Hwf Hne rebuilt. subst rebuilt.
  rewrite (load_documents_wf _ self Hwf). cbn [snd].
  rewrite build_vectorstore_chunks by exact Hne.
  cbn. repeat split.
Qed.

Lemma rebuild_replaces_index_witness :
  option_map (fun vs => map snd (index vs))
    (vectorstore
       (snd (build_vectorstore
               (snd (load_documents (Ok sample_corpus)
                       (snd (build_vectorstore
                               (snd (load_documents (Ok broken_corpus)
                                       (init sample_embed))))))))))
  = Some (corpus_chunks sample_corpus).
Proof.
  rewrite (proj1 (rebuild_replaces_index
                    (snd (build_vectorstore
                            (snd (load_documents (Ok broken_corpus)
                                    (init sample_embed)))))
                    sample_corpus eq_refl ltac:(discriminate))).
  reflexivity.
Defined.

End IngestionExtras.

(** ** The chain entry points *)

Section ChainExtras.

Import AAOIFIAgentChain.

Lemma qa_query_first_1000 (context question : string) :
  qa_query context question = slice_to 1000 (context ++ " " ++ question).
Proof.
  unfold qa_query.
  destruct (Nat.ltb 1000 (String.length (context ++ " " ++ question))) eqn:E;
    [reflexivity|].
  apply Nat.ltb_ge in E. symmetry. now apply slice_to_all.
Qed.

(* answer_question: one request for context, one invocation of the
   question-answering chain. *)
Lemma answer_question_run (self : t) (context question : string) (tr : Trace) :
  answer_question self context question tr
  = (match invoke self QA
             (qa_inputs context question
                (context_text self (qa_query context question) 3)) with
     | Ok a => Ok (mkAnswer a)
     | Raise e => Raise e
     end,
     tr ++ retrieval_events self (qa_query context question) 3
        ++ [Invoked QA
              (qa_inputs context question
                 (context_text self (qa_query context question) 3))]).
Proof.
  unfold answer_question, qa_inputs.
  unfold bind at 1. rewrite retrieve_relevant_documents_run.
  unfold bind at 1. unfold call at 1.
  destruct (invoke self QA _) as [a|e]; unfold ret; now rewrite <- app_assoc.
Qed.

Lemma events_after_app (tr new : Trace) :
  events_after (List.length tr) (tr ++ new) = new.
Proof.
  unfold events_after. rewrite skipn_app, skipn_all, Nat.sub_diag. reflexivity.
Qed.

Lemma in_stage_calls (self : t) (query : string) (ev : Event)
  (stage : Stage) (inputs : list (string * string)) :
  In (Invoked stage inputs) (retrieval_events self query 3 ++ [ev]) ->
  ev = Invoked stage inputs.
Proof.
  unfold retrieval_events. intros Hin. apply in_app_or in Hin as [Hin|Hin].
  - destruct (retriever self); [|contradiction].
    destruct Hin as [Hin|[]]. discriminate.
  - destruct Hin as [Hin|[]]. exact Hin.
Qed.

(** What each stage of process_standard is given. Whenever a chain is
    invoked during the call, the review and the validation stage receive the
    whole input text, also when it is longer than the 1000 characters of the
    retrieval query; the enhancement stage receives no input text at all,
    only a summary and a context; the question-answering chain is never
    invoked. *)
Theorem stages_receive_whole_text (self : t) (input_text : string)
  (tr : Trace) (stage : Stage) (inputs : list (string * string)) :
  In (Invoked stage inputs)
     (events_after (List.length tr) (snd (process_standard self input_text tr))) ->
  match stage with
  | Review | Validation => assoc "input_text" inputs = Some input_text
  | Enhancement =>
      assoc "input_text" inputs = None
      /\ (exists summary, assoc "summary" inputs = Some summary)
  | QA => False
  end.
Proof.
  rewrite process_standard_run.
  assert (Hreview : forall stage inputs,
            In (Invoked stage inputs) (review_calls self input_text) ->
            stage = Review /\ assoc "input_text" inputs = Some input_text).
  { intros st i Hin. apply in_stage_calls in Hin. now injection Hin as <- <-. }
  assert (Henh : forall s1 stage inputs,
            In (Invoked stage inputs) (enhancement_calls self s1) ->
            stage = Enhancement /\ assoc "input_text" inputs = None
            /\ assoc "summary" inputs = Some s1).
  { intros s1 st i Hin. apply in_stage_calls in Hin. now injection Hin as <- <-. }
  assert (Hval : forall s2 stage inputs,
            In (Invoked stage inputs) (validation_calls self input_text s2) ->
            stage = Validation /\ assoc "input_text" inputs = Some input_text).
  { intros s2 st i Hin. apply in_stage_calls in Hin. now injection Hin as <- <-. }
  destruct (invoke self Review _) as [s1|e1]; cbn [snd].
  - destruct (invoke self Enhancement _) as [s2|e2]; cbn [snd].
    + assert (Hall : In (Invoked stage inputs)
                       (review_calls self input_text ++ enhancement_calls self s1
                          ++ validation_calls self input_text s2) ->
                     match stage with
                     | Review | Validation =>
                         assoc "input_text" inputs = Some input_text
                     | Enhancement =>
                         assoc "input_text" inputs = None
                         /\ (exists summary, assoc "summary" inputs = Some summary)
                     | QA => False
                     end).
      { intros Hin. apply in_app_or in Hin as [Hin|Hin];
          [apply Hreview in Hin as [-> H]; exact H|].
        apply in_app_or in Hin as [Hin|Hin];
          [apply Henh in Hin as [-> [H1 H2]]; eauto
          |apply Hval in Hin as [-> H]; exact H]. }
      destruct (invoke self Validation _) as [s3|e3]; cbn [snd];
        rewrite events_after_app; exact Hall.
    + rewrite events_after_app. intros Hin.
      apply in_app_or in Hin as [Hin|Hin];
        [apply Hreview in Hin as [-> H]; exact H
        |apply Henh in Hin as [-> [H1 H2]]; eauto].
  - rewrite events_after_app. intros Hin.
    apply Hreview in Hin as [-> H]. exact H.
Qed.

Lemma stages_receive_whole_text_witness :
  assoc "input_text"
    (validation_inputs "the standard" "the suggestion"
       (context_text (mk answering None) "the suggestion" 3))
  = Some "the standard".
Proof.
  refine (stages_receive_whole_text (mk answering None) "the standard" []
            Validation _ _).
  cbn. right. right. left. reflexivity.
Defined.

End ChainExtras.

(** ** Rounding keeps the order *)

Lemma round_half_even_near_floor (n : Z) (d : positive) :
  (n / Zpos d <= round_half_even (n # d) <= n / Zpos d + 1)%Z.
Proof.
  unfold round_half_even. cbn [Qnum Qden].
  destruct (2 * (n mod Zpos d) ?= Zpos d)%Z; [|lia|lia].
  destruct (Z.even (n / Zpos d)); lia.
Qed.

Lemma round_half_even_monotone (q1 q2 : Q) :
  (q1 <= q2)%Q -> (round_half_even q1 <= round_half_even q2)%Z.
Proof.
  destruct q1 as [n1 d1], q2 as [n2 d2]. unfold Qle. cbn [Qnum Qden].
  intros Hle.
  pose proof (round_half_even_near_floor n1 d1) as Hnear1.
  pose proof (round_half_even_near_floor n2 d2) as Hnear2.
  pose proof (Z.div_mod n1 (Zpos d1) ltac:(lia)) as Hdm1.
  pose proof (Z.mod_pos_bound n1 (Zpos d1) ltac:(lia)) as Hr1.
  pose proof (Z.div_mod n2 (Zpos d2) ltac:(lia)) as Hdm2.
  pose proof (Z.mod_pos_bound n2 (Zpos d2) ltac:(lia)) as Hr2.
  unfold round_half_even in *. cbn [Qnum Qden] in *.
  set (D1 := Zpos d1) in *. set (D2 := Zpos d2) in *.
  set (f1 := (n1 / D1)%Z) in *. set (r1 := (n1 mod D1)%Z) in *.
  set (f2 := (n2 / D2)%Z) in *. set (r2 := (n2 mod D2)%Z) in *.
  assert (HD1 : (0 < D1)%Z) by (subst D1; lia).
  assert (HD2 : (0 < D2)%Z) by (subst D2; lia).
  clearbody D1 D2 f1 f2 r1 r2.
  assert (Hf : (f1 <= f2)%Z).
  { destruct (Z_le_gt_dec f1 f2) as [H|H]; [exact H|]. exfalso.
    assert ((f2 + 1) * (D1 * D2) <= f1 * (D1 * D2))%Z by nia.
    assert (n2 * D1 < (f2 + 1) * (D1 * D2))%Z by nia.
    assert (f1 * (D1 * D2) <= n1 * D2)%Z by nia.
    lia. }
  destruct (Z.eq_dec f1 f2) as [Heq|Hne]; [|lia].
  subst f2.
  assert (Hr : (r1 * D2 <= r2 * D1)%Z) by nia.
  destruct (Z.compare_spec (2 * r1) D1) as [E1|L1|G1].
  - destruct (Z.even f1) eqn:Ev; [lia|].
    destruct (Z.compare_spec (2 * r2) D2) as [E2|L2|G2].
    + cbv iota. lia.
    + exfalso. nia.
    + cbv iota. lia.
  - lia.
  - destruct (Z.compare_spec (2 * r2) D2) as [E2|L2|G2].
    + exfalso. nia.
    + exfalso. nia.
    + cbv iota. lia.
Qed.

Lemma round2_monotone (x y : Q) : (x <= y)%Q -> (round2 x <= round2 y)%Q.
Proof.
  intros Hle. unfold round2. rewrite !Qred_correct.
  unfold Qle. cbn [Qnum Qden].
  assert (H : (round_half_even (x * 100) <= round_half_even (y * 100))%Z).
  { apply round_half_even_monotone.
    apply Qmult_le_compat_r; [exact Hle | discriminate]. }
  lia.
Qed.

(** ** More on the relevance scorer *)

Section ScorerExtras.

Import AAOIFIAgentChain.

Lemma Forall2_combine_in {A B} (R : A -> B -> Prop) (xs : list A)
  (ys : list B) (x : A) (y : B) :
  Forall2 R xs ys -> In (x, y) (combine xs ys) -> R x y.
Proof.
  intros Hall. induction Hall as [|x' y' xs ys Hxy Hrest IH]; [contradiction|].
  cbn [combine]. intros [Heq|Hin]; [now injection Heq as <- <- | now apply IH].
Qed.

(* What a returned report says about the hits it was made from. *)
Lemma report_follows_hits (self : t) (context question : string) (tr : Trace)
  (hits : list (Document * Q)) (report : Report) :
  fst (_retrieve_top_fas_rules self (qa_query context question) 3 tr) = Ok hits ->
  fst (find_relevant_fas_rules self context question tr) = Ok report ->
  Forall2 (rule_matches (max_score_of hits)) hits (rules report)
  /\ (hits <> [] -> ~ (max_score_of hits == 0)%Q).
Proof.
  intros Hhits Hreport.
  rewrite (find_relevant_fas_rules_run _ _ _ _ _ Hhits) in Hreport.
  destruct hits as [|hit rest].
  - injection Hreport as <-. split; [constructor | now intros []].
  - destruct (rules_of _ (hit :: rest)) as [rs|e] eqn:Hrs; [|discriminate].
    injection Hreport as <-. split; [now apply rules_of_matches|].
    intros _ Hz. rewrite (rules_of_zero_max _ _ Hz) in Hrs; discriminate.
Qed.

(** Percentages keep the order of the scores. In a report returned for hits
    whose largest score is above 0, a hit with a score at most that of
    another hit gets a relevance_percentage at most that of the other:
    rounding never swaps two rules. *)
Theorem percentages_keep_score_order (self : t) (context question : string)
  (tr : Trace) (hits : list (Document * Q)) (report : Report)
  (h1 h2 : Document * Q) (r1 r2 : Rule) :
  fst (_retrieve_top_fas_rules self (qa_query context question) 3 tr) = Ok hits ->
  fst (find_relevant_fas_rules self context question tr) = Ok report ->
  (0 < max_score_of hits)%Q ->
  In (h1, r1) (combine hits (rules report)) ->
  In (h2, r2) (combine hits (rules report)) ->
  (snd h1 <= snd h2)%Q ->
  (relevance_percentage r1 <= relevance_percentage r2)%Q.
Proof.
  intros Hhits Hreport Hmax Hin1 Hin2 Hle.
  destruct (report_follows_hits _ _ _ _ _ _ Hhits Hreport) as [Hall _].
  destruct (Forall2_combine_in _ _ _ _ _ Hall Hin1) as [_ [_ [_ ->]]].
  destruct (Forall2_combine_in _ _ _ _ _ Hall Hin2) as [_ [_ [_ ->]]].
  apply round2_monotone.
  apply Qmult_le_compat_r; [|discriminate].
  unfold Qdiv. apply Qmult_le_compat_r; [exact Hle|].
  apply Qlt_le_weak, Qinv_lt_0_compat, Hmax.
Qed.

Lemma percentages_keep_score_order_witness :
  (relevance_percentage (mkRule (JStr "B") JNull "world" 50%Q)
   <= relevance_percentage (mkRule (JStr "A") (JNum 1) "hello" 100%Q))%Q.
Proof.
  refine (percentages_keep_score_order (mk answering (Some scored_retriever))
            "context" "question" []
            [(doc_a, (1 # 2)%Q); (doc_b, (1 # 4)%Q)]
            (mkReport "Found 2 relevant FAS rules."
               [mkRule (JStr "A") (JNum 1) "hello" 100%Q;
                mkRule (JStr "B") JNull "world" 50%Q])
            (doc_b, (1 # 4)%Q) (doc_a, (1 # 2)%Q) _ _
            eq_refl eq_refl eq_refl _ _ _).
  - right. left. reflexivity.
  - left. reflexivity.
  - discriminate.
Defined.

(** Scores below 0 leave the range. In a report returned for hits whose raw
    scores are all negative, every relevance_percentage is at least 100: the
    hit with the largest score is at 100 and every other hit is above it. *)
Theorem negative_scores_reach_100_or_more (self : t)
  (context question : string) (tr : Trace) (hits : list (Document * Q))
  (report : Report) :
  fst (_retrieve_top_fas_rules self (qa_query context question) 3 tr) = Ok hits ->
  fst (find_relevant_fas_rules self context question tr) = Ok report ->
  Forall (fun hit => (snd hit < 0)%Q) hits ->
  Forall (fun rule => (100 <= relevance_percentage rule)%Q) (rules report).
Proof.
  intros Hhits Hreport Hneg.
  destruct (report_follows_hits _ _ _ _ _ _ Hhits Hreport) as [Hall _].
  destruct hits as [|first rest];
    [inversion Hall; constructor|].
  set (hs := first :: rest) in *. set (m := max_score_of hs) in *.
  assert (Hm : (m < 0)%Q).
  { assert (Hin : In m (map snd hs)) by (apply max_score_of_in; discriminate).
    apply in_map_iff in Hin as [h [Hh Hin]].
    rewrite Forall_forall in Hneg. rewrite <- Hh. now apply Hneg. }
  assert (Hle : Forall (fun h => (snd h <= m)%Q) hs).
  { rewrite Forall_forall. intros h Hin. now apply max_score_of_ge. }
  clearbody hs m. clear Hhits Hreport Hneg.
  induction Hall as [|h r hs' rs' Hr Hrest IH]; [constructor|].
  inversion Hle as [|? ? Hh Hle']; subst.
  constructor; [|now apply IH].
  destruct Hr as [_ [_ [_ ->]]].
  rewrite <- (round2_of_100 100) by reflexivity.
  apply round2_monotone.
  change (100 : Q) with (1 * 100)%Q at 1.
  apply Qmult_le_compat_r; [|discriminate].
  assert (Hm' : ~ (m == 0)%Q) by (intros E; rewrite E in Hm; discriminate).
  assert (Hflip : (snd h / m == (- snd h) / (- m))%Q) by (field; exact Hm').
  rewrite Hflip. apply Qle_shift_div_l.
  - rewrite <- (Qplus_lt_r _ _ m). ring_simplify. exact Hm.
  - rewrite Qmult_1_l. now apply Qopp_le_compat.
Qed.

Lemma negative_scores_reach_100_or_more_witness :
  Forall (fun rule => (100 <= relevance_percentage rule)%Q)
    [mkRule (JStr "A") (JNum 1) "hello" 100%Q;
     mkRule (JStr "B") JNull "world" 200%Q].
Proof.
  refine (negative_scores_reach_100_or_more
            (mk answering
               (Some (mkRetriever (fun _ _ => Ok [])
                        (Some (mkVectorStore
                                 (Some (fun _ _ => Ok [(doc_a, (-1 # 4)%Q);
                                                       (doc_b, (-1 # 2)%Q)])))))))
            "context" "question" []
            [(doc_a, (-1 # 4)%Q); (doc_b, (-1 # 2)%Q)]
            (mkReport "Found 2 relevant FAS rules."
               [mkRule (JStr "A") (JNum 1) "hello" 100%Q;
                mkRule (JStr "B") JNull "world" 200%Q])
            eq_refl eq_refl _).
  repeat constructor.
Defined.

Lemma py_max_zeros (docs : list Document) :
  py_max 0 (map snd (map (fun doc : Document => (doc, 0%Q)) docs)) = 0%Q.
Proof.
  unfold py_max. induction docs as [|doc docs IH]; [reflexivity|].
  cbn [map snd fold_left]. exact IH.
Qed.

(** The message of a report agrees with its rules. A returned report either
    has no rule and the fixed no-results message, or has one rule per hit,
    at least one, and the message "Found n relevant FAS rules." with n the
    number of its rules; so the rules list is empty exactly when the message
    is the no-results one. *)
Theorem report_message_counts_rules (self : t) (context question : string)
  (tr : Trace) (hits : list (Document * Q)) (report : Report) :
  fst (_retrieve_top_fas_rules self (qa_query context question) 3 tr) = Ok hits ->
  fst (find_relevant_fas_rules self context question tr) = Ok report ->
  List.length (rules report) = List.length hits
  /\ message report
     = (if Nat.eqb (List.length (rules report)) 0
        then "No relevant FAS rules found or retriever not available."
        else "Found " ++ str_of_nat (List.length (rules report))
               ++ " relevant FAS rules.")%string
  /\ (rules report = []
      <-> message report
          = "No relevant FAS rules found or retriever not available.").
Proof.
  intros Hhits Hreport.
  destruct (report_follows_hits _ _ _ _ _ _ Hhits Hreport) as [Hall _].
  split; [symmetry; exact (Forall2_length Hall)|].
  rewrite (find_relevant_fas_rules_run _ _ _ _ _ Hhits) in Hreport.
  destruct hits as [|hit rest].
  - injection Hreport as <-. cbn. repeat split.
  - destruct (rules_of _ (hit :: rest)) as [rs|e] eqn:Hrs; [|discriminate].
    injection Hreport as <-. cbn [rules message] in *.
    inversion Hall as [|? r ? rs' ? ? Heq]; subst. cbn [List.length Nat.eqb].
    split; [reflexivity|]. split; [discriminate|].
    cbn. discriminate.
Qed.

Lemma report_message_counts_rules_witness :
  message (mkReport "Found 2 relevant FAS rules."
             [mkRule (JStr "A") (JNum 1) "hello" 100%Q;
              mkRule (JStr "B") JNull "world" 50%Q])
  = "Found 2 relevant FAS rules.".
Proof.
  rewrite (proj1 (proj2 (report_message_counts_rules
             (mk answering (Some scored_retriever)) "context" "question" []
             [(doc_a, (1 # 2)%Q); (doc_b, (1 # 4)%Q)]
             (mkReport "Found 2 relevant FAS rules."
                [mkRule (JStr "A") (JNum 1) "hello" 100%Q;
                 mkRule (JStr "B") JNull "world" 50%Q])
             eq_refl eq_refl))).
  reflexivity.
Defined.

End ScorerExtras.

(** * The chain with the log lines of its except clauses *)

(** ** The context formatter *)

Section LoggedFormatter.

Import AAOIFIAgentChain.

Variable console_print : string -> Result unit.
Variable str_of_exn : PyExn -> string.

(* What the call returns and what it adds to the trace. *)
Lemma logged_retrieve_run (self : t) (query : string) (k : nat) (tr : Trace) :
  Logged._retrieve_relevant_documents console_print str_of_exn self query k tr
  = (match retriever self with
     | None =>
         Ok "No document retriever available. Proceeding without additional context."
     | Some r =>
         match get_relevant_documents r query k with
         | Ok [] => Ok "No relevant documents found in knowledge base."
         | Ok (doc :: docs) => Ok (join newline (rendered_hits (doc :: docs)))
         | Raise e =>
             match console_print ("[bold red]Error retrieving documents: "
                                    ++ str_of_exn e) with
             | Ok _ => Ok "Error retrieving documents from knowledge base."
             | Raise e' => Raise e'
             end
         end
     end,
     tr ++ retrieval_events self query k).
Proof.
  unfold Logged._retrieve_relevant_documents, retrieval_events.
  destruct (retriever self) as [r|].
  - unfold try_except, bind, call, ret, lift.
    destruct (get_relevant_documents r query k) as [[|doc docs]|e].
    + reflexivity.
    + unfold rendered_hits. now rewrite context_parts_rendered.
    + now destruct (console_print _) as [[]|e'].
  - unfold ret. now rewrite app_nil_r.
Qed.

(* When the log line returns, the formatter answers as the module without
   the log lines does. *)
Lemma logged_retrieve_agrees (self : t) (query : string) (k : nat)
  (tr : Trace) :
  retrieval_logged console_print str_of_exn self query k ->
  Logged._retrieve_relevant_documents console_print str_of_exn self query k tr
  = (Ok (context_text self query k), tr ++ retrieval_events self query k).
Proof.
  unfold retrieval_logged. intros Hlog. rewrite logged_retrieve_run.
  unfold context_text. destruct (retriever self) as [r|]; [|reflexivity].
  destruct (get_relevant_documents r query k) as [[|doc docs]|e];
    try reflexivity.
  now rewrite Hlog.
Qed.



End LoggedFormatter.


(** ** The chain entry points *)

Section LoggedChain.

Import AAOIFIAgentChain.

Variable console_print : string -> Result unit.
Variable str_of_exn : PyExn -> string.

(* answer_question when the log line returns: one request for context, one
   invocation of the question-answering chain. *)
Lemma logged_answer_question_run (self : t) (context question : string)
  (tr : Trace) :
  retrieval_logged console_print str_of_exn self (qa_query context question) 3 ->
  Logged.answer_question console_print str_of_exn self context question tr
  = (match invoke self QA
             (qa_inputs context question
                (context_text self (qa_query context question) 3)) with
     | Ok a => Ok (mkAnswer a)
     | Raise e => Raise e
     end,
     tr ++ retrieval_events self (qa_query context question) 3
        ++ [Invoked QA
              (qa_inputs context question
                 (context_text self (qa_query context question) 3))]).
Proof.
  intros Hlog. unfold Logged.answer_question, qa_inputs.
  unfold bind at 1. rewrite (logged_retrieve_agrees _ _ _ _ _ _ Hlog).
  unfold bind at 1. unfold call at 1.
  destruct (invoke self QA _) as [a|e]; unfold ret; now rewrite <- app_assoc.
Qed.

(** answer_question cuts its query to the first 1000 characters of
    context + " " + question (all of it when it is shorter) and asks the
    retriever once, with that query. When the retriever returns, or raises
    an exception that the log line of the formatter prints, the
    question-answering chain is then invoked once, with the whole context
    and the whole question: the call returns the chain's answer, and raises
    exactly the exception the chain raises. When the retriever raises and
    printing its exception raises, the call ends there with the exception
    of the print, and the chain is not invoked. *)
Theorem answer_question_one_query (self : t) (r : Retriever)
  (context question : string) (tr : Trace) :
  retriever self = Some r ->
  let query := slice_to 1000 (context ++ " " ++ question) in
  let run :=
    Logged.answer_question console_print str_of_exn self context question tr in
  String.length query <= 1000
  /\ prefix query (context ++ " " ++ question) = true
  /\ (retrieval_logged console_print str_of_exn self query 3 ->
      snd run
      = tr ++ [Retrieved query 3;
               Invoked QA
                 (qa_inputs context question (context_text self query 3))]
      /\ fst run
         = match invoke self QA
                   (qa_inputs context question (context_text self query 3)) with
           | Ok a => Ok (mkAnswer a)
           | Raise e => Raise e
           end)
  /\ (forall e0 e',
        get_relevant_documents r query 3 = Raise e0 ->
        console_print ("[bold red]Error retrieving documents: "
                         ++ str_of_exn e0) = Raise e' ->
        run = (Raise e', tr ++ [Retrieved query 3])).
Proof.
  intros Hr query run. subst run query.
  rewrite <- qa_query_first_1000.
  split; [rewrite qa_query_first_1000, slice_to_length; lia|].
  split; [rewrite qa_query_first_1000; apply slice_to_prefix|].
  split.
  - intros Hlog. rewrite (logged_answer_question_run _ _ _ _ Hlog).
    cbn [fst snd]. unfold retrieval_events. rewrite Hr. split; reflexivity.
  - intros e0 e' Hraise Hprint. unfold Logged.answer_question.
    unfold bind at 1. rewrite logged_retrieve_run.
    unfold retrieval_events. now rewrite Hr, Hraise, Hprint.
Qed.


Section QuietConsole.

Hypothesis console_returns : forall text, console_print text = Ok tt.

Lemma quiet_retrieval_logged (self : t) (query : string) (k : nat) :
  retrieval_logged console_print str_of_exn self query k.
Proof.
  unfold retrieval_logged. destruct (retriever self) as [r|]; [|exact I].
  destruct (get_relevant_documents r query k); [exact I|].
  apply console_returns.
Qed.

(* With a console that prints every text, the entry points are those of the
   module without the log lines. *)
Lemma quiet_formatter (self : t) (query : string) (k : nat) (tr : Trace) :
  Logged._retrieve_relevant_documents console_print str_of_exn self query k tr
  = _retrieve_relevant_documents self query k tr.
Proof.
  rewrite (logged_retrieve_agrees _ _ _ _ _ _ (quiet_retrieval_logged _ _ _)).
  now rewrite retrieve_relevant_documents_run.
Qed.

Lemma quiet_process_standard (self : t) (input_text : string) (tr : Trace) :
  Logged.process_standard console_print str_of_exn self input_text tr
  = process_standard self input_text tr.
Proof.
  unfold Logged.process_standard, process_standard.
  unfold bind at 1 7. rewrite quiet_formatter.
  destruct (_retrieve_relevant_documents self _ 3 tr) as [[c1|e1] t1];
    [|reflexivity].
  unfold bind at 1 6.
  destruct (call _ _ t1) as [[s1|e1] t1']; [|reflexivity].
  unfold bind at 1 5. rewrite quiet_formatter.
  destruct (_retrieve_relevant_documents self s1 3 t1') as [[c2|e2] t2];
    [|reflexivity].
  unfold bind at 1 4.
  destruct (call _ _ t2) as [[s2|e2] t2']; [|reflexivity].
  unfold bind at 1 3. rewrite quiet_formatter.
  destruct (_retrieve_relevant_documents self s2 3 t2') as [[c3|e3] t3];
    [|reflexivity].
  reflexivity.
Qed.

Lemma quiet_answer_question (self : t) (context question : string)
  (tr : Trace) :
  Logged.answer_question console_print str_of_exn self context question tr
  = answer_question self context question tr.
Proof.
  rewrite (logged_answer_question_run _ _ _ _ (quiet_retrieval_logged _ _ _)).
  now rewrite answer_question_run.
Qed.

End QuietConsole.

End LoggedChain.

Lemma answer_question_one_query_witness :
  fst (Logged.answer_question refuses_closing_tags sample_str
         (AAOIFIAgentChain.mk answering (Some scored_retriever))
         "the context" "the question" [])
  = Ok (AAOIFIAgentChain.mkAnswer "the answer").
Proof.
  exact (proj2 (proj1 (proj2 (proj2
           (answer_question_one_query refuses_closing_tags sample_str
              (AAOIFIAgentChain.mk answering (Some scored_retriever))
              scored_retriever "the context" "the question" [] eq_refl))) I)).
Defined.


(** ** The relevance scorer *)

Lemma Forall2_with_in {A B} (R : A -> B -> Prop) (xs : list A) (ys : list B) :
  Forall2 R xs ys -> Forall2 (fun x y => In x xs /\ R x y) xs ys.
Proof.
  intros Hall. induction Hall as [|x y xs ys Hxy Hrest IH]; [constructor|].
  constructor; [split; [now left | exact Hxy]|].
  eapply Forall2_impl; [|exact IH].
  intros a b [Hin Hab]. split; [now right | exact Hab].
Qed.

(* A hit of the list with a score at least every score has the score that
   the code takes as the divisor. *)
Lemma top_hit_is_max (hits : list (Document * Q)) (hit : Document * Q) :
  In hit hits -> top_hit hits hit ->
  (snd hit == AAOIFIAgentChain.max_score_of hits)%Q.
Proof.
  intros Hin Htop. apply Qle_antisym; [now apply max_score_of_ge|].
  assert (Hne : hits <> []) by (intros ->; contradiction).
  apply max_score_of_in, in_map_iff in Hne as [h [<- Hh]].
  unfold top_hit in Htop. rewrite Forall_forall in Htop. now apply Htop.
Qed.

Lemma exists_top_hit (hits : list (Document * Q)) :
  hits <> [] -> Exists (top_hit hits) hits.
Proof.
  intros Hne. apply Exists_exists.
  apply max_score_of_in, in_map_iff in Hne as [h [Hmax Hh]].
  exists h. split; [exact Hh|].
  unfold top_hit. rewrite Forall_forall. intros other Hother.
  rewrite Hmax. now apply max_score_of_ge.
Qed.

(* The divisor that the code takes is the score of a hit of the list, at
   least every score. *)
Lemma max_score_is_top (hits : list (Document * Q)) :
  hits <> [] ->
  exists top,
    In top hits /\ top_hit hits top
    /\ snd top = AAOIFIAgentChain.max_score_of hits.
Proof.
  intros Hne.
  apply max_score_of_in, in_map_iff in Hne as [h [Hmax Hh]].
  exists h. split; [exact Hh|]. split; [|exact Hmax].
  unfold top_hit. rewrite Forall_forall. intros other Hother.
  rewrite Hmax. now apply max_score_of_ge.
Qed.

Lemma positive_score_positive_max (hits : list (Document * Q)) :
  Exists (fun hit => (0 < snd hit)%Q) hits ->
  (0 < AAOIFIAgentChain.max_score_of hits)%Q.
Proof.
  intros Hex. apply Exists_exists in Hex as [h [Hin Hpos]].
  eapply Qlt_le_trans; [exact Hpos | now apply max_score_of_ge].
Qed.

Lemma python_percentage_returns (score max_score p : Q) :
  python_percentage score max_score = Ok p ->
  ~ (max_score == 0)%Q /\ p = round2 (score / max_score * 100)%Q.
Proof.
  unfold python_percentage, py_div.
  destruct (Qeq_bool max_score 0) eqn:E; [discriminate|].
  intros [= <-]. split; [|reflexivity].
  intros Hz. apply Qeq_eq_bool in Hz. congruence.
Qed.

Section LoggedScorer.

Import AAOIFIAgentChain.

Variable console_print : string -> Result unit.
Variable str_of_exn : PyExn -> string.

(* What the retrieval of the scorer returns. *)
Lemma logged_top_rules_run (self : t) (query : string) (k : nat) (tr : Trace) :
  fst (Logged._retrieve_top_fas_rules console_print str_of_exn self query k tr)
  = match retriever self with
    | None => Ok []
    | Some r =>
        match vectorstore r with
        | None => Ok []
        | Some vs =>
            match match similarity_search_with_score vs with
                  | Some search => search query k
                  | None =>
                      match get_relevant_documents r query k with
                      | Ok docs => Ok (map (fun doc => (doc, 0%Q)) docs)
                      | Raise e => Raise e
                      end
                  end with
            | Ok hits => Ok hits
            | Raise e =>
                match console_print ("[bold red]Error retrieving FAS rules: "
                                       ++ str_of_exn e) with
                | Ok _ => Ok []
                | Raise e' => Raise e'
                end
            end
        end
    end.
Proof.
  unfold Logged._retrieve_top_fas_rules.
  destruct (retriever self) as [r|]; [|reflexivity].
  destruct (vectorstore r) as [vs|]; [|reflexivity].
  unfold try_except, bind, call, ret, lift.
  destruct (similarity_search_with_score vs) as [search|].
  - destruct (search query k) as [hits|e]; [reflexivity|].
    now destruct (console_print _) as [[]|e'].
  - destruct (get_relevant_documents r query k) as [docs|e]; [reflexivity|].
    now destruct (console_print _) as [[]|e'].
Qed.

Lemma logged_top_rules_yields (self : t) (query : string) (k : nat)
  (tr : Trace) (hits : list (Document * Q)) :
  retrieval_yields self query k hits ->
  fst (Logged._retrieve_top_fas_rules console_print str_of_exn self query k tr)
  = Ok hits.
Proof.
  unfold retrieval_yields. rewrite logged_top_rules_run.
  destruct (retriever self) as [r|]; [|now intros ->].
  destruct (vectorstore r) as [vs|]; [|now intros ->].
  destruct (similarity_search_with_score vs) as [search|].
  - now intros ->.
  - now intros [docs [-> ->]].
Qed.

(* Hits that reach the scorer are hits that retrieval yielded. *)
Lemma logged_top_rules_hits (self : t) (query : string) (k : nat)
  (tr : Trace) (hits : list (Document * Q)) :
  fst (Logged._retrieve_top_fas_rules console_print str_of_exn self query k tr)
  = Ok hits ->
  hits <> [] ->
  retrieval_yields self query k hits.
Proof.
  unfold retrieval_yields. rewrite logged_top_rules_run.
  destruct (retriever self) as [r|]; [|now intros [= <-]].
  destruct (vectorstore r) as [vs|]; [|now intros [= <-]].
  destruct (similarity_search_with_score vs) as [search|].
  - destruct (search query k) as [l|e]; [now intros [= <-]|].
    destruct (console_print _) as [[]|e']; [|discriminate].
    now intros [= <-] [].
  - destruct (get_relevant_documents r query k) as [docs|e].
    + intros [= <-] _. now exists docs.
    + destruct (console_print _) as [[]|e']; [|discriminate].
      now intros [= <-] [].
Qed.

(* The retrieval of the scorer raises only what the log line raises. *)
Lemma logged_top_rules_raises (self : t) (query : string) (k : nat)
  (tr : Trace) (e : PyExn) :
  fst (Logged._retrieve_top_fas_rules console_print str_of_exn self query k tr)
  = Raise e ->
  exists r vs e0,
    retriever self = Some r
    /\ vectorstore r = Some vs
    /\ store_raises r vs query k e0
    /\ console_print ("[bold red]Error retrieving FAS rules: "
                        ++ str_of_exn e0) = Raise e.
Proof.
  rewrite logged_top_rules_run.
  destruct (retriever self) as [r|]; [|discriminate].
  destruct (vectorstore r) as [vs|] eqn:Hvs; [|discriminate].
  destruct (similarity_search_with_score vs) as [search|] eqn:Hss.
  - destruct (search query k) as [l|e0] eqn:Hs; [discriminate|].
    destruct (console_print _) as [[]|e'] eqn:Hlog; [discriminate|].
    intros [= <-]. exists r, vs, e0. unfold store_raises. rewrite Hss.
    repeat split; assumption.
  - destruct (get_relevant_documents r query k) as [docs|e0] eqn:Hd;
      [discriminate|].
    destruct (console_print _) as [[]|e'] eqn:Hlog; [discriminate|].
    intros [= <-]. exists r, vs, e0. unfold store_raises. rewrite Hss.
    repeat split; assumption.
Qed.

Section AnyArithmetic.

Variable Percentage : Type.
Variable percentage_of : Q -> Q -> Result Percentage.

(* find_relevant_fas_rules, read off what its retrieval returns. *)
Lemma logged_find_run (self : t) (context question : string) (tr : Trace) :
  fst (Logged.find_relevant_fas_rules console_print str_of_exn percentage_of
         self context question tr)
  = match fst (Logged._retrieve_top_fas_rules console_print str_of_exn
                 self (qa_query context question) 3 tr) with
    | Raise e => Raise e
    | Ok [] => Ok no_results
    | Ok (hit :: rest) =>
        match Logged.rules_of percentage_of (max_score_of (hit :: rest))
                (hit :: rest) with
        | Ok rules =>
            Ok (Logged.mkReport
                  ("Found " ++ str_of_nat (List.length rules)
                     ++ " relevant FAS rules.")%string rules)
        | Raise e => Raise e
        end
    end.
Proof.
  unfold Logged.find_relevant_fas_rules, bind.
  destruct (Logged._retrieve_top_fas_rules _ _ self _ 3 tr) as [[hits|e] tr'];
    [|reflexivity].
  cbn [fst]. destruct hits as [|hit rest]; [reflexivity|].
  unfold lift. destruct (Logged.rules_of _ _ _); reflexivity.
Qed.

(* A returned list of rules follows the hits one by one. *)
Lemma logged_rules_follow (m : Q) (hits : list (Document * Q))
  (rules : list (Logged.Rule Percentage)) :
  Logged.rules_of percentage_of m hits = Ok rules ->
  Forall2 (fun hit rule =>
             rule_follows hit rule
             /\ percentage_of (snd hit) m
                = Ok (Logged.relevance_percentage rule))
          hits rules.
Proof.
  revert rules. induction hits as [|[doc score] rest IH]; intros rules.
  - intros [= <-]. constructor.
  - cbn [Logged.rules_of Logged.rule_of].
    destruct (percentage_of score m) as [p|e] eqn:Hp; [|discriminate].
    destruct (Logged.rules_of percentage_of m rest) as [rs|e]; [|discriminate].
    intros [= <-]. constructor; [|now apply IH].
    split; [repeat split | exact Hp].
Qed.


Lemma logged_rules_raise (m : Q) (hits : list (Document * Q)) (e : PyExn) :
  Logged.rules_of percentage_of m hits = Raise e ->
  exists hit, In hit hits /\ percentage_of (snd hit) m = Raise e.
Proof.
  induction hits as [|[doc score] rest IH]; [discriminate|].
  cbn [Logged.rules_of Logged.rule_of].
  destruct (percentage_of score m) as [p|e1] eqn:Hp.
  - destruct (Logged.rules_of percentage_of m rest) as [rs|e2];
      [discriminate|].
    intros [= <-]. destruct (IH eq_refl) as [h [Hin Hh]].
    exists h. split; [now right | exact Hh].
  - intros [= <-]. exists (doc, score). split; [now left | exact Hp].
Qed.

(* What a returned report says about the hits that retrieval yielded. *)
Lemma logged_report_follows (self : t) (context question : string)
  (tr : Trace) (hits : list (Document * Q))
  (report : Logged.Report Percentage) :
  retrieval_yields self (qa_query context question) 3 hits ->
  fst (Logged.find_relevant_fas_rules console_print str_of_exn percentage_of
         self context question tr) = Ok report ->
  Forall2 (fun hit rule =>
             rule_follows hit rule
             /\ percentage_of (snd hit) (max_score_of hits)
                = Ok (Logged.relevance_percentage rule))
          hits (Logged.rules report).
Proof.
  intros Hyield. rewrite logged_find_run.
  rewrite (logged_top_rules_yields _ _ _ _ _ Hyield).
  destruct hits as [|hit rest].
  - intros [= <-]. constructor.
  - destruct (Logged.rules_of _ _ (hit :: rest)) as [rs|e] eqn:Hrs;
      [|discriminate].
    intros [= <-]. now apply logged_rules_follow.
Qed.


(** Every exception that leaves find_relevant_fas_rules was raised either
    by console.print at the log line of the retrieval, after the store had
    raised, or by the percentage arithmetic on the score of a hit that
    retrieval yielded, taken against the largest score of the hits. What
    the retriever or its store raises is caught: it reaches the caller only
    if printing it fails. *)
Theorem find_relevant_fas_rules_errors (self : t) (context question : string)
  (tr : Trace) (e : PyExn) :
  fst (Logged.find_relevant_fas_rules console_print str_of_exn percentage_of
         self context question tr) = Raise e ->
  (exists r vs e0,
     retriever self = Some r
     /\ vectorstore r = Some vs
     /\ store_raises r vs (qa_query context question) 3 e0
     /\ console_print ("[bold red]Error retrieving FAS rules: "
                         ++ str_of_exn e0) = Raise e)
  \/ (exists hits hit top,
        retrieval_yields self (qa_query context question) 3 hits
        /\ In hit hits
        /\ In top hits
        /\ top_hit hits top
        /\ percentage_of (snd hit) (snd top) = Raise e).
Proof.
  rewrite logged_find_run.
  destruct (fst (Logged._retrieve_top_fas_rules _ _ self _ 3 tr))
    as [[|hit rest]|e1] eqn:Htop.
  - discriminate.
  - destruct (Logged.rules_of _ _ (hit :: rest)) as [rs|e2] eqn:Hrs;
      [discriminate|].
    intros [= <-]. right.
    destruct (logged_rules_raise _ _ _ Hrs) as [h [Hin Hh]].
    destruct (max_score_is_top (hit :: rest)) as [top [Htin [Htt Hmax]]];
      [discriminate|].
    exists (hit :: rest), h, top.
    split; [|rewrite Hmax; repeat split; assumption].
    apply (logged_top_rules_hits _ _ _ tr); [exact Htop | discriminate].
  - intros [= <-]. left. now apply (logged_top_rules_raises _ _ _ tr).
Qed.

End AnyArithmetic.

(** C9. Whenever find_relevant_fas_rules returns a non-empty rules list for
    hits of which one has a score above 0, every rule at the place of a hit
    whose score is at least every score of the hits has
    relevance_percentage exactly 100; there is such a hit, so there is a
    rule at 100. *)
Theorem top_score_is_100_percent (self : t) (context question : string)
  (tr : Trace) (hits : list (Document * Q)) (report : Logged.Report Q) :
  retrieval_yields self (qa_query context question) 3 hits ->
  fst (Logged.find_relevant_fas_rules console_print str_of_exn
         python_percentage self context question tr) = Ok report ->
  Logged.rules report <> [] ->
  Exists (fun hit => (0 < snd hit)%Q) hits ->
  Forall2 (fun hit rule =>
             top_hit hits hit -> Logged.relevance_percentage rule = 100%Q)
          hits (Logged.rules report)
  /\ Exists (top_hit hits) hits
  /\ Exists (fun rule => Logged.relevance_percentage rule = 100%Q)
            (Logged.rules report).
Proof.
  intros Hyield Hreport Hne Hpos.
  pose proof (logged_report_follows _ _ _ _ _ _ _ _ Hyield Hreport) as Hall.
  pose proof (positive_score_positive_max _ Hpos) as Hmax.
  assert (Hhits : hits <> []) by (intros ->; inversion Hpos).
  assert (Htop : Forall2 (fun hit rule =>
                            top_hit hits hit ->
                            Logged.relevance_percentage rule = 100%Q)
                         hits (Logged.rules report)).
  { eapply Forall2_impl; [|exact (Forall2_with_in _ _ _ Hall)].
    intros h r [Hin [_ Hp]] Hh.
    apply python_percentage_returns in Hp as [Hm ->].
    apply round2_of_100. rewrite (top_hit_is_max _ _ Hin Hh).
    field. exact Hm. }
  split; [exact Htop|]. split; [now apply exists_top_hit|].
  eapply Forall2_Exists_transfer;
    [exact Htop | | exact (exists_top_hit _ Hhits)].
  intros h r Hr Hh. now apply Hr.
Qed.

(** When the raw scores of the hits are not negative and one of them is
    above 0, every relevance_percentage of a report that
    find_relevant_fas_rules returns lies between 0 and 100. *)
Theorem percentages_between_0_and_100 (self : t) (context question : string)
  (tr : Trace) (hits : list (Document * Q)) (report : Logged.Report Q) :
  retrieval_yields self (qa_query context question) 3 hits ->
  fst (Logged.find_relevant_fas_rules console_print str_of_exn
         python_percentage self context question tr) = Ok report ->
  Forall (fun hit => (0 <= snd hit)%Q) hits ->
  Exists (fun hit => (0 < snd hit)%Q) hits ->
  Forall (fun rule => (0 <= Logged.relevance_percentage rule)%Q
                      /\ (Logged.relevance_percentage rule <= 100)%Q)
         (Logged.rules report).
Proof.
  intros Hyield Hreport Hnonneg Hpos.
  pose proof (logged_report_follows _ _ _ _ _ _ _ _ Hyield Hreport) as Hall.
  pose proof (positive_score_positive_max _ Hpos) as Hmax.
  apply Forall2_with_in in Hall. rewrite Forall_forall in Hnonneg.
  set (m := max_score_of hits) in *.
  assert (Hle : forall h, In h hits -> (snd h <= m)%Q)
    by (intros h Hh; now apply max_score_of_ge).
  clearbody m. clear Hyield Hreport Hpos.
  induction Hall as [|h r hs rs [Hin [_ Hp]] Hrest IH]; [constructor|].
  constructor; [|exact IH].
  apply python_percentage_returns in Hp as [_ ->].
  destruct (percentage_between_0_100 _ _ (Hnonneg h Hin) (Hle h Hin) Hmax)
    as [Hlo Hhi].
  now apply round2_between_0_100.
Qed.

(** The placeholder scores never give a rule. When the vector store of the
    retriever has no similarity_search_with_score, every document the
    retriever returns is scored 0.0: find_relevant_fas_rules raises
    ZeroDivisionError whenever the retriever returns at least one document,
    and returns the no-results report when it returns none. When the
    retriever raises, the no-results report is returned if the log line
    prints the exception, and what the log line raises leaves the call
    otherwise. On that path no report ever holds a rule. *)
Theorem placeholder_scores_give_no_rule (self : t) (r : Retriever)
  (vs : VectorStore) (context question : string) (tr : Trace) :
  retriever self = Some r ->
  vectorstore r = Some vs ->
  similarity_search_with_score vs = None ->
  let run :=
    fst (Logged.find_relevant_fas_rules console_print str_of_exn
           python_percentage self context question tr) in
  run = match get_relevant_documents r (qa_query context question) 3 with
        | Ok [] => Ok no_results
        | Ok (_ :: _) => Raise ZeroDivisionError
        | Raise e =>
            match console_print ("[bold red]Error retrieving FAS rules: "
                                   ++ str_of_exn e) with
            | Ok _ => Ok no_results
            | Raise e' => Raise e'
            end
        end
  /\ forall report, run = Ok report -> Logged.rules report = [].
Proof.
  intros Hr Hvs Hsearch run.
  assert (Hrun : run
                 = match get_relevant_documents r
                           (qa_query context question) 3 with
                   | Ok [] => Ok no_results
                   | Ok (_ :: _) => Raise ZeroDivisionError
                   | Raise e =>
                       match console_print
                               ("[bold red]Error retrieving FAS rules: "
                                  ++ str_of_exn e) with
                       | Ok _ => Ok no_results
                       | Raise e' => Raise e'
                       end
                   end).
  { subst run. rewrite logged_find_run, logged_top_rules_run.
    rewrite Hr, Hvs, Hsearch.
    destruct (get_relevant_documents r (qa_query context question) 3)
      as [[|doc docs]|e].
    - reflexivity.
    - cbn [map]. unfold max_score_of. cbn [map snd].
      rewrite py_max_zeros. reflexivity.
    - now destruct (console_print _) as [[]|e']. }
  split; [exact Hrun|]. rewrite Hrun. intros report.
  destruct (get_relevant_documents r (qa_query context question) 3)
    as [[|doc docs]|e].
  - now intros [= <-].
  - discriminate.
  - destruct (console_print _) as [[]|e']; [now intros [= <-] | discriminate].
Qed.

End LoggedScorer.


Lemma find_relevant_fas_rules_errors_witness :
  (exists r vs e0,
     AAOIFIAgentChain.retriever
       (AAOIFIAgentChain.mk answering (Some tagged_failure)) = Some r
     /\ AAOIFIAgentChain.vectorstore r = Some vs
     /\ store_raises r vs (AAOIFIAgentChain.qa_query "context" "question") 3 e0
     /\ refuses_closing_tags ("[bold red]Error retrieving FAS rules: "
                                ++ sample_str e0)
        = Raise (RaisedBy "MarkupError"
                          "closing tag '[/INST]' doesn't match any open tag"))
  \/ (exists hits hit top,
        retrieval_yields
          (AAOIFIAgentChain.mk answering (Some tagged_failure))
          (AAOIFIAgentChain.qa_query "context" "question") 3 hits
        /\ In hit hits
        /\ In top hits
        /\ top_hit hits top
        /\ python_percentage (snd hit) (snd top)
           = Raise (RaisedBy "MarkupError"
                             "closing tag '[/INST]' doesn't match any open tag")).
Proof.
  exact (find_relevant_fas_rules_errors refuses_closing_tags sample_str Q
           python_percentage
           (AAOIFIAgentChain.mk answering (Some tagged_failure))
           "context" "question" []
           (RaisedBy "MarkupError"
                     "closing tag '[/INST]' doesn't match any open tag")
           eq_refl).
Defined.

Lemma top_score_is_100_percent_witness :
  Exists (fun rule => Logged.relevance_percentage rule = 100%Q)
    [Logged.mkRule (JStr "A") (JNum 1) "hello" 100%Q;
     Logged.mkRule (JStr "B") JNull "world" 50%Q].
Proof.
  refine (proj2 (proj2
            (top_score_is_100_percent prints_all sample_str
               (AAOIFIAgentChain.mk answering (Some scored_retriever))
               "context" "question" []
               [(doc_a, (1 # 2)%Q); (doc_b, (1 # 4)%Q)]
               (Logged.mkReport "Found 2 relevant FAS rules."
                  [Logged.mkRule (JStr "A") (JNum 1) "hello" 100%Q;
                   Logged.mkRule (JStr "B") JNull "world" 50%Q])
               eq_refl eq_refl _ _))).
  - discriminate.
  - left. reflexivity.
Defined.

Lemma percentages_between_0_and_100_witness :
  Forall (fun rule => (0 <= Logged.relevance_percentage rule)%Q
                      /\ (Logged.relevance_percentage rule <= 100)%Q)
    [Logged.mkRule (JStr "A") (JNum 1) "hello" 100%Q;
     Logged.mkRule (JStr "B") JNull "world" 50%Q].
Proof.
  refine (percentages_between_0_and_100 prints_all sample_str
            (AAOIFIAgentChain.mk answering (Some scored_retriever))
            "context" "question" []
            [(doc_a, (1 # 2)%Q); (doc_b, (1 # 4)%Q)]
            (Logged.mkReport "Found 2 relevant FAS rules."
               [Logged.mkRule (JStr "A") (JNum 1) "hello" 100%Q;
                Logged.mkRule (JStr "B") JNull "world" 50%Q])
            eq_refl eq_refl _ _).
  - repeat constructor; discriminate.
  - left. reflexivity.
Defined.

Lemma placeholder_scores_give_no_rule_witness :
  fst (Logged.find_relevant_fas_rules refuses_closing_tags sample_str
         python_percentage
         (AAOIFIAgentChain.mk answering (Some unscored_retriever))
         "context" "question" [(AAOIFIAgentChain.Retrieved "earlier" 3)])
  = Raise ZeroDivisionError.
Proof.
  exact (proj1 (placeholder_scores_give_no_rule refuses_closing_tags
                  sample_str
                  (AAOIFIAgentChain.mk answering (Some unscored_retriever))
                  unscored_retriever (AAOIFIAgentChain.mkVectorStore None)
                  "context" "question"
                  [(AAOIFIAgentChain.Retrieved "earlier" 3)]
                  eq_refl eq_refl eq_refl)).
Defined.

(** * The model manager and the request handler *)

(** ** ModelManager *)

Section ModelManagerExtras.

Import ModelManager.

Context {Tokenizer Model LLM Embeddings : Type}.

(* A load of the language model that returns has set it. *)
Lemma load_llm_sets_llm (lib : Libraries Tokenizer Model LLM Embeddings) (self mm : t Tokenizer Model LLM Embeddings) :
  _load_llm lib self = (Ok tt, mm) ->
  llm mm <> None /\ embedding_model mm = embedding_model self.
Proof.
  unfold _load_llm.
  destruct (String.eqb (model_type self) "bloom").
  - unfold _load_bloom_model, try_except, bind, lift, reraise, set_tokenizer,
      set_model, set_llm.
    destruct (tokenizer_from_pretrained lib (model_path self)) as [tok|e];
      [|discriminate].
    cbn [model_path device].
    destruct (model_from_pretrained lib (model_path self)) as [m|e];
      [|discriminate].
    destruct (text_generation_llm lib m tok (device self)) as [l|e];
      [|discriminate].
    intros [= <-]. cbn. split; [discriminate | reflexivity].
  - destruct (String.eqb (model_type self) "llama2"); [|discriminate].
    unfold _load_llama2_model, try_except, bind, lift, reraise, set_llm.
    destruct (ollama_llm lib (ollama_base_url self)) as [l|e]; [|discriminate].
    intros [= <-]. cbn. split; [discriminate | reflexivity].
Qed.

Lemma load_models_sets_both (lib : Libraries Tokenizer Model LLM Embeddings) (self mm : t Tokenizer Model LLM Embeddings) :
  load_models lib self = (Ok tt, mm) ->
  llm mm <> None /\ embedding_model mm <> None.
Proof.
  unfold load_models, bind.
  destruct (_load_llm lib self) as [[[]|e] mm1] eqn:Hllm; [|discriminate].
  apply load_llm_sets_llm in Hllm as [Hl _].
  unfold _load_embedding_model, bind, lift, set_embedding_model.
  destruct (huggingface_embeddings lib) as [emb|e]; [|discriminate].
  intros [= <-]. cbn. split; [exact Hl | discriminate].
Qed.

Lemma load_models_then_get
  (lib later : Libraries Tokenizer Model LLM Embeddings)
  (self mm : t Tokenizer Model LLM Embeddings) :
  load_models lib self = (Ok tt, mm) ->
  (exists l, llm mm = Some l /\ get_llm later mm = (Ok (Some l), mm))
  /\ (exists emb, embedding_model mm = Some emb
                  /\ get_embedding_model later mm = (Ok (Some emb), mm)).
Proof.
  intros Hload. destruct (load_models_sets_both _ _ _ Hload) as [Hl He].
  unfold get_llm, get_embedding_model.
  destruct (llm mm) as [l|]; [|contradiction].
  destruct (embedding_model mm) as [emb|]; [|contradiction].
  split; eexists; split; reflexivity.
Qed.

(** Loaded models are kept. After a load_models that returned, get_llm and
    get_embedding_model return the loaded objects and leave the manager as
    it is, whatever the libraries would now do: nothing is loaded a second
    time. *)
Theorem loaded_models_are_kept
  (lib later : Libraries Tokenizer Model LLM Embeddings)
  (self mm : t Tokenizer Model LLM Embeddings) :
  load_models lib self = (Ok tt, mm) ->
  (exists l, llm mm = Some l /\ get_llm later mm = (Ok (Some l), mm))
  /\ (exists emb, embedding_model mm = Some emb
                  /\ get_embedding_model later mm = (Ok (Some emb), mm)).
Proof. apply load_models_then_get. Qed.

Lemma load_models_unlisted (lib : Libraries Tokenizer Model LLM Embeddings)
  (ty path url : string) (dev : Z) :
  assoc (py_lower ty) list_available_models = None ->
  load_models lib (init ty path dev url)
  = (Raise (ValueError ("Unsupported model type: " ++ py_lower ty
                          ++ ". Choose 'bloom' or 'llama2'.")),
     init ty path dev url).
Proof.
  unfold list_available_models. cbn [assoc]. intros Hnone.
  unfold load_models, bind, _load_llm, init. cbn [model_type].
  rewrite (String.eqb_sym (py_lower ty) "bloom").
  destruct (String.eqb "bloom" (py_lower ty)); [discriminate|].
  rewrite (String.eqb_sym (py_lower ty) "llama2").
  destruct (String.eqb "llama2" (py_lower ty)); [discriminate|].
  reflexivity.
Qed.

(** The model types that load are the listed ones. With libraries that
    work, load_models returns exactly for the model types that
    list_available_models lists, compared without regard to letter case;
    for any other type it raises ValueError with a message that names the
    type, and leaves the manager as __init__ made it. *)
Theorem listed_model_types_load (lib : Libraries Tokenizer Model LLM Embeddings) (ty path url : string) (dev : Z) :
  (forall p, exists x, tokenizer_from_pretrained lib p = Ok x) ->
  (forall p, exists x, model_from_pretrained lib p = Ok x) ->
  (forall m k d, exists x, text_generation_llm lib m k d = Ok x) ->
  (forall u, exists x, ollama_llm lib u = Ok x) ->
  (exists x, huggingface_embeddings lib = Ok x) ->
  ((exists mm, load_models lib (init ty path dev url) = (Ok tt, mm))
   <-> assoc (py_lower ty) list_available_models <> None)
  /\ (assoc (py_lower ty) list_available_models = None ->
      load_models lib (init ty path dev url)
      = (Raise (ValueError ("Unsupported model type: " ++ py_lower ty
                              ++ ". Choose 'bloom' or 'llama2'.")),
         init ty path dev url)).
Proof.
  intros Htok Hmodel Hllm Hollama [emb Hemb].
  split; [|apply load_models_unlisted].
  destruct (assoc (py_lower ty) list_available_models) as [desc|] eqn:Hlisted.
  - split; [discriminate|]. intros _.
    unfold list_available_models in Hlisted. cbn [assoc] in Hlisted.
    unfold load_models, bind at 1, _load_llm, init. cbn [model_type].
    rewrite (String.eqb_sym (py_lower ty) "bloom").
    destruct (String.eqb "bloom" (py_lower ty)).
    + unfold _load_bloom_model, try_except, bind, lift, set_tokenizer,
        set_model, set_llm, _load_embedding_model, set_embedding_model.
      cbn [model_path device].
      destruct (Htok path) as [tok ->]. destruct (Hmodel path) as [m ->].
      destruct (Hllm m tok dev) as [l ->]. rewrite Hemb.
      eexists. reflexivity.
    + rewrite (String.eqb_sym (py_lower ty) "llama2").
      destruct (String.eqb "llama2" (py_lower ty)); [|discriminate].
      unfold _load_llama2_model, try_except, bind, lift, set_llm,
        _load_embedding_model, set_embedding_model.
      cbn [ollama_base_url]. destruct (Hollama url) as [l ->]. rewrite Hemb.
      eexists. reflexivity.
  - rewrite (load_models_unlisted lib ty path url dev Hlisted).
    split; [intros [mm H]; discriminate | intros H; now contradiction H].
Qed.

(** A model that fails to load leaves the tokenizer behind. When the model
    type is bloom, the tokenizer loads and the model raises [e], load_models
    raises that same exception [e]; the manager then holds the tokenizer and
    is otherwise as before: no language model is set and the embedding model
    is not loaded. *)
Theorem failed_model_leaves_tokenizer (lib : Libraries Tokenizer Model LLM Embeddings) (self : t Tokenizer Model LLM Embeddings)
  (tok : Tokenizer) (e : PyExn) :
  model_type self = "bloom" ->
  tokenizer_from_pretrained lib (model_path self) = Ok tok ->
  model_from_pretrained lib (model_path self) = Raise e ->
  load_models lib self
  = (Raise e,
     mk (model_type self) (model_path self) (device self)
        (ollama_base_url self) (Some tok) (model self) (llm self)
        (embedding_model self)).
Proof.
  intros Hty Htok Hmodel.
  unfold load_models, bind at 1, _load_llm. rewrite Hty, String.eqb_refl.
  unfold _load_bloom_model, try_except, bind, lift, reraise, set_tokenizer.
  rewrite Htok. cbn [model_path]. rewrite Hmodel, Hty. reflexivity.
Qed.

End ModelManagerExtras.

Lemma loaded_models_are_kept_witness :
  ModelManager.get_llm missing_model_libraries
    (snd (ModelManager.load_models working_libraries
            (ModelManager.init "BLOOM" "./local_models/bloom-560m" 0
               "http://localhost:11434")))
  = (Ok (Some answering),
     snd (ModelManager.load_models working_libraries
            (ModelManager.init "BLOOM" "./local_models/bloom-560m" 0
               "http://localhost:11434"))).
Proof.
  destruct (loaded_models_are_kept working_libraries missing_model_libraries
              (ModelManager.init "BLOOM" "./local_models/bloom-560m" 0
                 "http://localhost:11434")
              _ eq_refl) as [[l [Hl Hget]] _].
  injection Hl as <-. exact Hget.
Defined.

Lemma listed_model_types_load_witness :
  exists mm,
    ModelManager.load_models working_libraries
      (ModelManager.init "Llama2" "./local_models/bloom-560m" 0
         "http://localhost:11434")
    = (Ok tt, mm).
Proof.
  refine (proj2 (proj1 (listed_model_types_load working_libraries "Llama2"
                          "./local_models/bloom-560m" "http://localhost:11434"
                          0 _ _ _ _ _)) _).
  - intros p. eexists. reflexivity.
  - intros p. eexists. reflexivity.
  - intros m k d. eexists. reflexivity.
  - intros u. eexists. reflexivity.
  - eexists. reflexivity.
  - discriminate.
Defined.

Lemma failed_model_leaves_tokenizer_witness :
  ModelManager.load_models missing_model_libraries
    (ModelManager.init "bloom" "./local_models/bloom-560m" 0
       "http://localhost:11434")
  = (Raise model_down,
     ModelManager.mk "bloom" "./local_models/bloom-560m" 0%Z
       "http://localhost:11434" (Some tt) None None None).
Proof.
  exact (failed_model_leaves_tokenizer missing_model_libraries
           (ModelManager.init "bloom" "./local_models/bloom-560m" 0
              "http://localhost:11434")
           tt model_down eq_refl eq_refl eq_refl).
Defined.

(** ** The request handler *)

Section HandlerExtras.

Import AAOIFIAgentChain AIServer.

Context {Tokenizer Model : Type}.
Lemma py_get_dict (kv : list (string * json)) (key : string) :
  py_get (JObj kv) key JNull = Ok (got key kv).
Proof. unfold py_get, got. now destruct (assoc key kv). Qed.

Lemma json_endpoint_run (request : Request)
  (work : json -> json -> Py Trace (option Body)) (n : Z)
  (kv : list (string * json)) (tr : Trace) :
  content_length request = Ok n ->
  json_body request = Ok (JObj kv) ->
  json_endpoint request work tr
  = if negb (py_truthy (got "context" kv))
       || negb (py_truthy (got "question" kv))
    then (Ok (Some missing_fields), tr)
    else match work (got "context" kv) (got "question" kv) tr with
         | (Ok b, tr') => (Ok (option_map (mkResponse 200) b), tr')
         | (Raise e, tr') => (Ok (Some (mkResponse 400 (ErrorBody e))), tr')
         end.
Proof.
  intros Hlen Hbody. unfold json_endpoint, try_except, bind, lift, ret.
  rewrite Hlen, Hbody, !py_get_dict.
  destruct (negb (py_truthy (got "context" kv))
            || negb (py_truthy (got "question" kv))); [reflexivity|].
  destruct (work (got "context" kv) (got "question" kv) tr) as [[b|e] tr'];
    reflexivity.
Qed.

(** A request without its fields never reaches the chain. On each of the
    three JSON endpoints, a body that is a JSON object whose context or
    question is missing, null or empty is answered with 400 and the error
    "Missing context or question."; neither the retriever nor the model is
    called. *)
Theorem missing_fields_answered_400 (self : @AIServer.t Tokenizer Model)
  (request : Request) (n : Z) (kv : list (string * json)) (tr : Trace) :
  content_length request = Ok n ->
  json_body request = Ok (JObj kv) ->
  py_truthy (got "context" kv) && py_truthy (got "question" kv) = false ->
  challenge_1 self request tr = (Ok (Some missing_fields), tr)
  /\ challenge_2 self request tr = (Ok (Some missing_fields), tr)
  /\ challenge_3 self request tr = (Ok (Some missing_fields), tr).
Proof.
  intros Hlen Hbody Hfalsy.
  assert (Hcond : negb (py_truthy (got "context" kv))
                  || negb (py_truthy (got "question" kv)) = true).
  { rewrite <- negb_andb. now rewrite Hfalsy. }
  unfold challenge_1, challenge_2, challenge_3.
  rewrite !(json_endpoint_run _ _ n kv tr Hlen Hbody), Hcond.
  repeat split.
Qed.


End HandlerExtras.

Section HandlerWitnesses.

Import AAOIFIAgentChain AIServer.

Lemma missing_fields_answered_400_witness :
  challenge_3 (server_with (AAOIFIAgentChain.mk answering None))
    (json_request "/challenge_3" (JStr "the standard") (JStr "")) []
  = (Ok (Some missing_fields), []).
Proof.
  exact (proj2 (proj2
           (missing_fields_answered_400
              (server_with (AAOIFIAgentChain.mk answering None))
              (json_request "/challenge_3" (JStr "the standard") (JStr ""))
              64 [("context", JStr "the standard"); ("question", JStr "")] []
              eq_refl eq_refl eq_refl))).
Defined.


End HandlerWitnesses.
